(** * GenomeTreeTK: the NCBI helpers of [genometreetk/ncbi.py]

    A shallow embedding of the four functions of [genometreetk/ncbi.py]
    ([read_genome_dir], [read_refseq_metadata], [read_type_strains] and
    [get_type_strains]) and the properties of them that the specification
    states.

    Conventions of the embedding:
    - a Python [str] is a [string]; a character is a code point below 256;
    - a [dict] with string keys is a [gmap string _], a [set] is a [gset _];
    - a Python exception is the [Raise] case of [result], and a statement
      sequence that may raise is written in the [result] monad;
    - an opened text file is the text the file object delivers (newline
      translation done); iterating over it yields [file_lines];
    - [csv.reader] is the list of rows it yields, a row being a list of
      strings. *)

From Stdlib Require Import Ascii NArith ZArith.
From stdpp Require Import base option list gmap sets strings.

Local Open Scope stdpp_scope.
#[local] Set Warnings "-clear-no-such-hyp".

(** ** Exceptions *)

Inductive exn : Type :=
  | IndexError                 (* list index out of range *)
  | ValueError (item : string) (* [item] is not in list *).

Inductive result (A : Type) : Type :=
  | Ok (a : A)
  | Raise (e : exn).
Arguments Ok {A} a.
Arguments Raise {A} e.

#[global] Instance result_ret : MRet result := @Ok.
#[global] Instance result_bind : MBind result := λ A B f r,
  match r with
  | Ok a => f a
  | Raise e => Raise e
  end.

(** A [for] loop whose body may raise: the first exception ends the loop. *)
Fixpoint for_each {A S : Type} (body : S → A → result S) (st : S) (xs : list A)
  : result S :=
  match xs with
  | [] => Ok st
  | x :: xs' => st' ← body st x; for_each body st' xs'
  end.

(** ** Python built-ins used by the module *)

Module Py.

Definition TAB : ascii := "009"%char.
Definition NL : ascii := "010"%char.
Definition tab : string := String TAB "".
Definition nl : string := String NL "".

(** [l[i]] for a natural index. *)
Definition getitem {A : Type} (l : list A) (i : nat) : result A :=
  match l !! i with
  | Some x => Ok x
  | None => Raise IndexError
  end.

(** [l.index(x)]: the first position of [x], [ValueError] if there is
    none. *)
Fixpoint index (x : string) (l : list string) : result nat :=
  match l with
  | [] => Raise (ValueError x)
  | y :: l' => if decide (y = x) then Ok 0 else i ← index x l'; Ok (S i)
  end.

(** [c.isspace()] on code points below 256: the six ASCII blanks, the
    four separators 28-31, NEL (133) and the no-break space (160). *)
Definition isspace (c : ascii) : bool :=
  let n := N_of_ascii c in
  ((9 <=? n) && (n <=? 13) || (28 <=? n) && (n <=? 32)
   || (n =? 133) || (n =? 160))%N.

(** [s.rstrip()] *)
Fixpoint rstrip (s : string) : string :=
  match s with
  | "" => ""
  | String c s' =>
      match rstrip s' with
      | "" => if isspace c then "" else String c ""
      | r => String c r
      end
  end.

(** [s.split(sep)] for a separator of one character. *)
Fixpoint split (sep : ascii) (s : string) : list string :=
  match s with
  | "" => [""]
  | String c s' =>
      if decide (c = sep) then "" :: split sep s'
      else match split sep s' with
           | f :: fs => String c f :: fs
           | [] => [String c ""]
           end
  end.

(** [s.startswith(p)] *)
Fixpoint startswith (p s : string) : bool :=
  match p, s with
  | "", _ => true
  | String a p', String b s' => if decide (a = b) then startswith p' s' else false
  | String _ _, "" => false
  end.

(** [p in s] for strings. *)
Fixpoint contains (p s : string) : bool :=
  startswith p s ||
  match s with
  | "" => false
  | String _ s' => contains p s'
  end.

(** [s.replace(old, '')]: the occurrences of [old] are removed from left
    to right, without overlap.  [skip] counts the characters of a matched
    occurrence that are still to be dropped. *)
Fixpoint remove_from (old : string) (skip : nat) (s : string) : string :=
  match s with
  | "" => ""
  | String c s' =>
      match skip with
      | S k => remove_from old k s'
      | O =>
          if startswith old s
          then remove_from old (String.length old - 1) s'
          else String c (remove_from old 0 s')
      end
  end.

Definition remove (old s : string) : string :=
  match old with
  | "" => s
  | _ => remove_from old 0 s
  end.

(** [c.lower()] on code points below 256: A-Z, and the Latin-1 capitals
    192-222 except the multiplication sign 215. *)
Definition lower_char (c : ascii) : ascii :=
  let n := N_of_ascii c in
  if ((65 <=? n) && (n <=? 90)
      || (192 <=? n) && (n <=? 222) && negb (n =? 215))%N
  then ascii_of_N (n + 32) else c.

Fixpoint lower (s : string) : string :=
  match s with
  | "" => ""
  | String c s' => String (lower_char c) (lower s')
  end.

(** Iterating over a text file: every line keeps its terminator; the
    last line has none when the text does not end in a newline. *)
Fixpoint file_lines (text : string) : list string :=
  match text with
  | "" => []
  | String c text' =>
      if decide (c = NL) then String c "" :: file_lines text'
      else match file_lines text' with
           | l :: ls => String c l :: ls
           | [] => [String c ""]
           end
  end.

End Py.

(** ** [read_genome_dir] *)

(** The body of the loop: [line_split = line.rstrip().split('\t')], then
    [genome_dirs[line_split[0]] = line_split[1]] (the right-hand side is
    evaluated first). *)
Definition read_genome_dir_line (genome_dirs : gmap string string) (line : string)
  : result (gmap string string) :=
  let line_split := Py.split Py.TAB (Py.rstrip line) in
  dir ← Py.getitem line_split 1;
  gid ← Py.getitem line_split 0;
  Ok (<[gid := dir]> genome_dirs).

Definition read_genome_dir (genome_dir_file : string) : result (gmap string string) :=
  for_each read_genome_dir_line ∅ (Py.file_lines genome_dir_file).

(** ** [read_refseq_metadata] *)

(** The local variables of the function.  The four column indices are
    unbound in the source until the header row has been read; they are
    read only when [bHeader] is false. *)
Record metadata_locals : Type := MetadataLocals {
  bHeader : bool;
  genome_index : nat;
  taxid_index : nat;
  assembly_level_index : nat;
  refseq_category_index : nat;
  accession_to_taxid : gmap string string;
  complete_genomes : gset string;
  representative_genomes : gset string
}.

Definition metadata_init : metadata_locals :=
  MetadataLocals true 0 0 0 0 ∅ ∅ ∅.

(** [assembly_accession.replace('RS_', '').replace('GB_', '')] *)
Definition strip_db_prefix (assembly_accession : string) : string :=
  Py.remove "GB_" (Py.remove "RS_" assembly_accession).

(** The key under which a retained row is stored. *)
Definition accession_key (keep_db_prefix : bool) (assembly_accession : string)
  : string :=
  if keep_db_prefix then assembly_accession
  else strip_db_prefix assembly_accession.

(** The body of the loop over the rows of the CSV reader. *)
Definition read_refseq_metadata_row (keep_db_prefix : bool)
    (st : metadata_locals) (row : list string) : result metadata_locals :=
  if bHeader st then
    gi ← Py.index "genome" row;
    ti ← Py.index "ncbi_taxid" row;
    ai ← Py.index "ncbi_assembly_level" row;
    ri ← Py.index "ncbi_refseq_category" row;
    Ok (MetadataLocals false gi ti ai ri (accession_to_taxid st)
          (complete_genomes st) (representative_genomes st))
  else
    assembly_accession ← Py.getitem row (genome_index st);
    if Py.startswith "RS_" assembly_accession then
      let assembly_accession := accession_key keep_db_prefix assembly_accession in
      taxid ← Py.getitem row (taxid_index st);
      let a2t := <[assembly_accession := taxid]> (accession_to_taxid st) in
      level ← Py.getitem row (assembly_level_index st);
      let assembly_level := Py.lower level in
      let complete :=
        if decide (assembly_level = "complete genome")
        then {[assembly_accession]} ∪ complete_genomes st
        else complete_genomes st in
      category ← Py.getitem row (refseq_category_index st);
      let refseq_category := Py.lower category in
      let representative :=
        if Py.contains "reference" refseq_category
           || Py.contains "representative" refseq_category
        then {[assembly_accession]} ∪ representative_genomes st
        else representative_genomes st in
      Ok (MetadataLocals false (genome_index st) (taxid_index st)
            (assembly_level_index st) (refseq_category_index st)
            a2t complete representative)
    else Ok st.

Definition read_refseq_metadata (metadata_file : list (list string))
    (keep_db_prefix : bool)
  : result (gmap string string * gset string * gset string) :=
  st ← for_each (read_refseq_metadata_row keep_db_prefix) metadata_init
        metadata_file;
  Ok (accession_to_taxid st, complete_genomes st, representative_genomes st).

(** ** [read_type_strains] *)

Definition read_type_strains_line (type_strain_taxids : gset string)
    (line : string) : result (gset string) :=
  let line_split := Py.split Py.TAB line in
  taxid ← Py.getitem line_split 0;
  Ok ({[taxid]} ∪ type_strain_taxids).

Definition read_type_strains (type_strain_file : string) : result (gset string) :=
  for_each read_type_strains_line ∅ (Py.file_lines type_strain_file).

(** ** [get_type_strains] *)

(** The values the function handles: taxonomy identifiers are strings, and
    the default of the lookup is the integer [-1]. *)
Inductive pyval : Type :=
  | PyStr (s : string)
  | PyInt (z : Z).

#[global] Instance pyval_eq_dec : EqDecision pyval.
Proof. solve_decision. Defined.

#[global] Instance pyval_countable : Countable pyval :=
  inj_countable'
    (λ v, match v with PyStr s => inl s | PyInt z => inr z end)
    (λ x, match x with inl s => PyStr s | inr z => PyInt z end)
    (λ v, match v with PyStr _ => eq_refl | PyInt _ => eq_refl end).

(** [d.get(key, default)] *)
Definition dict_get {V : Type} (d : gmap string V) (key : string) (dflt : V) : V :=
  default dflt (d !! key).

Definition get_type_strains_step (accession_to_taxid : gmap string pyval)
    (type_strain_taxids : gset pyval) (type_strains : gset string)
    (genome_id : string) : gset string :=
  let taxid := dict_get accession_to_taxid genome_id (PyInt (-1)) in
  if decide (taxid ∈ type_strain_taxids)
  then {[genome_id]} ∪ type_strains
  else type_strains.

(** The loop, for the order in which the set happens to be iterated. *)
Definition get_type_strains_loop (order : list string)
    (accession_to_taxid : gmap string pyval) (type_strain_taxids : gset pyval)
  : gset string :=
  foldl (get_type_strains_step accession_to_taxid type_strain_taxids) ∅ order.

Definition get_type_strains (genome_ids : gset string)
    (accession_to_taxid : gmap string pyval) (type_strain_taxids : gset pyval)
  : gset string :=
  get_type_strains_loop (elements genome_ids) accession_to_taxid
    type_strain_taxids.

(** ** Vocabulary of the statements *)

(** [has_char c s]: the character [c] occurs in [s]. *)
Fixpoint has_char (c : ascii) (s : string) : bool :=
  match s with
  | "" => false
  | String a s' => if decide (a = c) then true else has_char c s'
  end.

(** [x] is the first [sep]-delimited field of [line]: [x] has no [sep], and
    [line] is [x] alone or [x] followed by [sep] and more text. *)
Definition is_first_field (sep : ascii) (x line : string) : Prop :=
  has_char sep x = false
  ∧ (line = x ∨ ∃ rest, line = x +:+ String sep rest).

(** The lines of a text, said without the file object: a line ends with
    its newline and holds no other one; the last line alone may have no
    newline, and is then not empty.  [lines_of_text text lines]: [lines],
    put end to end, are [text], and each of them is such a line. *)
Definition terminated_line (line : string) : Prop :=
  ∃ body, line = body +:+ Py.nl ∧ has_char Py.NL body = false.

Fixpoint well_cut (lines : list string) : Prop :=
  match lines with
  | [] => True
  | line :: rest =>
      (terminated_line line
       ∨ (rest = [] ∧ line ≠ "" ∧ has_char Py.NL line = false))
      ∧ well_cut rest
  end.

Definition lines_of_text (text : string) (lines : list string) : Prop :=
  foldr String.app "" lines = text ∧ well_cut lines.

(** The tab-separated fields of a line of the genome-directory file, once
    its trailing whitespace is stripped. *)
Definition line_fields (line : string) : list string :=
  Py.split Py.TAB (Py.rstrip line).

Definition line_genome_id (line : string) : string :=
  default "" (line_fields line !! 0).

Definition line_genome_dir (line : string) : string :=
  default "" (line_fields line !! 1).

(** What a line with two fields or more does to the mapping. *)
Definition store_line (m : gmap string string) (line : string)
  : gmap string string :=
  <[line_genome_id line := line_genome_dir line]> m.

(** A line is empty when it holds nothing but its terminator. *)
Definition nonempty_lines (text : string) : list string :=
  filter (λ line, line ≠ Py.nl) (Py.file_lines text).

(** The round-trip property of [read_genome_dir] read with "non-empty
    line" in its usual sense: empty lines are allowed in the file and do
    not count. *)
Definition genome_dir_roundtrip_nonempty (text : string) : Prop :=
  (∀ line, line ∈ nonempty_lines text → 2 ≤ length (line_fields line)) →
  NoDup (line_genome_id <$> nonempty_lines text) →
  ∃ m, read_genome_dir text = Ok m
       ∧ size m = length (nonempty_lines text)
       ∧ ∀ line, line ∈ nonempty_lines text →
                 m !! line_genome_id line = Some (line_genome_dir line).

(** [k] is the key of a data row that passes the [RS_] filter, [gi] being
    the position of the [genome] column. *)
Definition retained_key (keep_db_prefix : bool) (gi : nat)
    (rows : list (list string)) (k : string) : Prop :=
  ∃ row g, row ∈ rows ∧ row !! gi = Some g
           ∧ Py.startswith "RS_" g = true
           ∧ k = accession_key keep_db_prefix g.

(** The column names [read_refseq_metadata] looks up in the header. *)
Definition required_columns : list string :=
  ["genome"; "ncbi_taxid"; "ncbi_assembly_level"; "ncbi_refseq_category"].

(** The positions of the four columns, as the header row gives them. *)
Record columns : Type := Columns {
  col_genome : nat;
  col_taxid : nat;
  col_level : nat;
  col_category : nat
}.

Definition header_columns (header : list string) : result columns :=
  gi ← Py.index "genome" header;
  ti ← Py.index "ncbi_taxid" header;
  ai ← Py.index "ncbi_assembly_level" header;
  ri ← Py.index "ncbi_refseq_category" header;
  Ok (Columns gi ti ai ri).

(** The loop is past the header row, with the columns at [c]. *)
Definition at_columns (c : columns) (st : metadata_locals) : Prop :=
  bHeader st = false
  ∧ genome_index st = col_genome c ∧ taxid_index st = col_taxid c
  ∧ assembly_level_index st = col_level c
  ∧ refseq_category_index st = col_category c.

(** A data row that the loop gets through: it has a [genome] value, and
    the three other values when the [genome] value starts with [RS_]. *)
Definition row_readable (c : columns) (row : list string) : Prop :=
  ∃ g, row !! col_genome c = Some g
       ∧ (Py.startswith "RS_" g = true →
          is_Some (row !! col_taxid c) ∧ is_Some (row !! col_level c)
          ∧ is_Some (row !! col_category c)).

(** [row] is a data row with the [genome] value [g], which starts with
    [RS_]. *)
Definition retained (c : columns) (row : list string) (g : string) : Prop :=
  row !! col_genome c = Some g ∧ Py.startswith "RS_" g = true.

(** Two rows, of files with the columns at [c1] and at [c2], that hold the
    same [genome] and [ncbi_taxid] values, and the same assembly level and
    RefSeq category up to the case of letters. *)
Definition row_agree (c1 c2 : columns) (r1 r2 : list string) : Prop :=
  r1 !! col_genome c1 = r2 !! col_genome c2
  ∧ r1 !! col_taxid c1 = r2 !! col_taxid c2
  ∧ Py.lower <$> r1 !! col_level c1 = Py.lower <$> r2 !! col_level c2
  ∧ Py.lower <$> r1 !! col_category c1 = Py.lower <$> r2 !! col_category c2.

(** * Properties *)

(** ** The loop combinator *)

Section ForEach.
Context {A S : Type} (body : S → A → result S).

Lemma for_each_app (st : S) (xs ys : list A) :
  for_each body st (xs ++ ys)
  = st' ← for_each body st xs; for_each body st' ys.
Proof.
  revert st. induction xs as [|x xs IH]; intros st; simpl; [done|].
  destruct (body st x) as [st'|e]; simpl; [apply IH | done].
Qed.

(** A property of the state that every iteration keeps holds when the
    loop ends normally. *)
Lemma for_each_invariant (P : S → Prop) (xs : list A) :
  (∀ st x st', x ∈ xs → P st → body st x = Ok st' → P st') →
  ∀ st st', P st → for_each body st xs = Ok st' → P st'.
Proof.
  induction xs as [|x xs IH]; intros Hstep st st' HP Hrun; simpl in Hrun.
  - by inversion Hrun; subst.
  - destruct (body st x) as [st1|e] eqn:Hb; simpl in Hrun; [|done].
    apply (IH (λ s y s' Hy, Hstep s y s' (list_elem_of_further _ _ _ Hy)) st1);
      [|done].
    apply (Hstep st x); [left | done | done].
Qed.

(** When every iteration succeeds with a known effect, the loop is a
    left fold. *)
Lemma for_each_total (f : S → A → S) (xs : list A) :
  (∀ st x, x ∈ xs → body st x = Ok (f st x)) →
  ∀ st, for_each body st xs = Ok (foldl f st xs).
Proof.
  induction xs as [|x xs IH]; intros Hb st; simpl; [done|].
  rewrite Hb by left. simpl. apply IH. intros s y Hy. apply Hb. by right.
Qed.
End ForEach.

(** ** Lists and strings *)

(** Case analysis on a member of a list that is given in full. *)
Ltac each_member H tac :=
  repeat (apply elem_of_cons in H as [->|H]; [tac|]);
  try (by apply elem_of_nil in H).

Lemma filter_all {A : Type} (P : A → Prop) `{!∀ x, Decision (P x)}
    (l : list A) :
  Forall P l → filter P l = l.
Proof.
  induction 1 as [|x l Hx _ IH]; [done|].
  rewrite filter_cons_True by done. by rewrite IH.
Qed.

Lemma index_absent (x : string) (l : list string) :
  x ∉ l → Py.index x l = Raise (ValueError x).
Proof.
  induction l as [|y l IH]; intros Hx; simpl; [done|].
  apply not_elem_of_cons in Hx as [Hne Hx].
  destruct (decide (y = x)); [congruence|]. by rewrite IH.
Qed.

Lemma index_present (x : string) (l : list string) :
  x ∈ l → ∃ i, Py.index x l = Ok i ∧ l !! i = Some x.
Proof.
  induction l as [|y l IH]; intros Hx; [by apply elem_of_nil in Hx|].
  simpl. destruct (decide (y = x)) as [->|Hne]; [by exists 0|].
  apply elem_of_cons in Hx as [->|Hx]; [done|].
  destruct (IH Hx) as (i & -> & Hi). by exists (S i).
Qed.

Lemma split_cons (sep : ascii) (s : string) :
  ∃ f fs, Py.split sep s = f :: fs ∧ has_char sep f = false
          ∧ (fs = [] ∧ s = f ∨ ∃ rest, s = f +:+ String sep rest
                                       ∧ fs = Py.split sep rest).
Proof.
  induction s as [|c s (f & fs & Hs & Hf & Hrest)]; simpl.
  - exists "", []. auto.
  - destruct (decide (c = sep)) as [->|Hne].
    + exists "", (Py.split sep s). split_and!; [done..|]. right. by exists s.
    + rewrite Hs. exists (String c f), fs. split_and!; [done| |].
      * simpl. by rewrite decide_False.
      * destruct Hrest as [[-> ->]|(rest & -> & ->)]; [by left|].
        right. by exists rest.
Qed.

Lemma file_lines_concat (text : string) :
  foldr String.app "" (Py.file_lines text) = text.
Proof.
  induction text as [|c text IH]; simpl; [done|].
  destruct (decide (c = Py.NL)); simpl; [by rewrite IH|].
  destruct (Py.file_lines text) as [|l ls]; simpl in *; by rewrite <- IH.
Qed.

Lemma app_String (c : ascii) (s t : string) :
  String c s +:+ t = String c (s +:+ t).
Proof. reflexivity. Qed.

Lemma app_empty (t : string) : "" +:+ t = t.
Proof. reflexivity. Qed.

Lemma app_empty_r (s : string) : s +:+ "" = s.
Proof. induction s as [|c s IH]; [done|]. by rewrite app_String, IH. Qed.

(** The file object cuts a text after its first newline. *)
Lemma file_lines_terminated (body rest : string) :
  has_char Py.NL body = false →
  Py.file_lines ((body +:+ Py.nl) +:+ rest)
  = (body +:+ Py.nl) :: Py.file_lines rest.
Proof.
  induction body as [|c body IH]; [reflexivity|]. cbn [has_char].
  destruct (decide (c = Py.NL)) as [|Hc]; [done|]. intros Hbody.
  rewrite !app_String. cbn [Py.file_lines].
  destruct (decide (c = Py.NL)); [done|]. by rewrite (IH Hbody).
Qed.

(** A text without newline is one line, unless it is empty. *)
Lemma file_lines_unterminated (s : string) :
  s ≠ "" → has_char Py.NL s = false → Py.file_lines s = [s].
Proof.
  induction s as [|c s IH]; [done|]. intros _. simpl.
  destruct (decide (c = Py.NL)) as [|Hc]; [done|]. intros Hs.
  destruct s as [|d s]; [done|]. by rewrite IH.
Qed.

(** The file object yields the lines of the text, and a text has no
    other lines. *)
Lemma file_lines_well_cut (text : string) : well_cut (Py.file_lines text).
Proof.
  induction text as [|c text IH]; [done|]. simpl.
  destruct (decide (c = Py.NL)) as [->|Hc].
  - split; [|done]. left. by exists "".
  - destruct (Py.file_lines text) as [|l ls].
    + split; [|done]. right. split_and!; [done..|].
      simpl. by rewrite decide_False.
    + destruct IH as [[(body & -> & Hbody)|(-> & Hl & Hnl)] Hls].
      * split; [|done]. left. exists (String c body). split; [done|].
        simpl. by rewrite decide_False.
      * split; [|done]. right. split_and!; [done..|].
        simpl. by rewrite decide_False.
Qed.

Lemma well_cut_file_lines (lines : list string) :
  well_cut lines → Py.file_lines (foldr String.app "" lines) = lines.
Proof.
  induction lines as [|l lines IH]; [done|].
  intros [[(body & -> & Hbody)|(-> & Hl & Hnl)] Hrest].
  - cbn [foldr]. rewrite file_lines_terminated by done. by rewrite IH.
  - cbn [foldr]. rewrite app_empty_r. by apply file_lines_unterminated.
Qed.

Lemma lines_of_text_file_lines (text : string) :
  lines_of_text text (Py.file_lines text).
Proof. split; [apply file_lines_concat | apply file_lines_well_cut]. Qed.

Lemma lines_of_text_unique (text : string) (lines : list string) :
  lines_of_text text lines → lines = Py.file_lines text.
Proof. intros [<- Hcut]. by rewrite well_cut_file_lines. Qed.

(** ** [read_genome_dir] *)

Example read_genome_dir_ex :
  read_genome_dir ("g1" +:+ Py.tab +:+ "/a" +:+ Py.nl
                   +:+ "g2" +:+ Py.tab +:+ "/b " +:+ Py.tab +:+ "x" +:+ Py.nl)
  = Ok (<["g2" := "/b "]> (<["g1" := "/a"]> ∅)).
Proof. reflexivity. Qed.

(** A line with two fields or more stores its second field under its
    first. *)
Lemma read_genome_dir_line_Ok (m : gmap string string) (line : string) :
  2 ≤ length (line_fields line) →
  read_genome_dir_line m line
  = Ok (<[line_genome_id line := line_genome_dir line]> m).
Proof.
  intros Hlen. unfold read_genome_dir_line, line_genome_id, line_genome_dir.
  fold (line_fields line).
  destruct (line_fields line) as [|gid [|dir fs]]; simpl in *; [lia..|done].
Qed.

(** A line with fewer than two fields raises [IndexError]. *)
Lemma read_genome_dir_line_Raise (m : gmap string string) (line : string) :
  length (line_fields line) < 2 →
  read_genome_dir_line m line = Raise IndexError.
Proof.
  intros Hlen. unfold read_genome_dir_line. fold (line_fields line).
  destruct (line_fields line) as [|gid [|dir fs]]; simpl in *; [done..|lia].
Qed.

Lemma read_genome_dir_line_cases (m : gmap string string) (line : string) :
  read_genome_dir_line m line = Raise IndexError
  ∨ ∃ m', read_genome_dir_line m line = Ok m'.
Proof.
  destruct (decide (2 ≤ length (line_fields line))).
  - right. eexists. by apply read_genome_dir_line_Ok.
  - left. apply read_genome_dir_line_Raise. lia.
Qed.

Lemma read_genome_dir_lines_Raise (m : gmap string string) (lines : list string)
    (line : string) :
  line ∈ lines → length (line_fields line) < 2 →
  for_each read_genome_dir_line m lines = Raise IndexError.
Proof.
  intros Hin Hlen. revert m.
  induction lines as [|l lines IH]; intros m; [by apply elem_of_nil in Hin|].
  simpl. destruct (read_genome_dir_line_cases m l) as [->|[m' Hm']]; [done|].
  rewrite Hm'. simpl. apply elem_of_cons in Hin as [<-|Hin]; [|by apply IH].
  by rewrite read_genome_dir_line_Raise in Hm'.
Qed.

Lemma read_genome_dir_lines_Ok (m : gmap string string) (lines : list string) :
  (∀ line, line ∈ lines → 2 ≤ length (line_fields line)) →
  for_each read_genome_dir_line m lines = Ok (foldl store_line m lines).
Proof.
  intros Hwf. apply for_each_total. intros st line Hin.
  by apply read_genome_dir_line_Ok, Hwf.
Qed.

Lemma store_lines_lookup_other (m : gmap string string) (lines : list string)
    (gid : string) :
  gid ∉ line_genome_id <$> lines →
  foldl store_line m lines !! gid = m !! gid.
Proof.
  revert m. induction lines as [|l lines IH]; intros m Hnot; simpl; [done|].
  rewrite fmap_cons in Hnot. apply not_elem_of_cons in Hnot as [Hne Hnot].
  rewrite IH by done. unfold store_line. by rewrite lookup_insert_ne.
Qed.

Lemma store_lines_lookup_last (m : gmap string string)
    (before after : list string) (line : string) :
  line_genome_id line ∉ line_genome_id <$> after →
  foldl store_line m (before ++ line :: after) !! line_genome_id line
  = Some (line_genome_dir line).
Proof.
  intros Hnot. rewrite foldl_app. simpl.
  rewrite store_lines_lookup_other by done.
  unfold store_line. by rewrite lookup_insert_eq.
Qed.

Lemma store_lines_dom (m : gmap string string) (lines : list string) :
  dom (foldl store_line m lines)
  = dom m ∪ list_to_set (line_genome_id <$> lines).
Proof.
  revert m. induction lines as [|l lines IH]; intros m; simpl.
  - set_solver.
  - rewrite IH. unfold store_line. rewrite dom_insert_L. set_solver.
Qed.

(** C4, as stated, fails: a file of two well-formed lines with an empty
    line between them satisfies the premises, and [read_genome_dir] raises
    [IndexError] on the empty line instead of returning a mapping. *)
Lemma read_genome_dir_empty_line_counterexample :
  let text := "a" +:+ Py.tab +:+ "b" +:+ Py.nl +:+ Py.nl
              +:+ "c" +:+ Py.tab +:+ "d" +:+ Py.nl in
  nonempty_lines text = ["a" +:+ Py.tab +:+ "b" +:+ Py.nl;
                         "c" +:+ Py.tab +:+ "d" +:+ Py.nl]
  ∧ read_genome_dir text = Raise IndexError
  ∧ ¬ genome_dir_roundtrip_nonempty text.
Proof.
  intros text. split; [reflexivity|]. split; [reflexivity|].
  intros Hclaim. destruct Hclaim as (m & Hm & _).
  - intros line Hin. change (nonempty_lines text) with
      ["a" +:+ Py.tab +:+ "b" +:+ Py.nl; "c" +:+ Py.tab +:+ "d" +:+ Py.nl] in Hin.
    each_member Hin ltac:(vm_compute; lia).
  - change (NoDup ["a"; "c"]). apply NoDup_cons. split; [|apply NoDup_singleton].
    intros Hin. by apply list_elem_of_singleton in Hin.
  - change (read_genome_dir text) with (@Raise (gmap string string) IndexError) in Hm.
    discriminate.
Qed.

(** C4 (amended): when every line of the file, the empty ones included,
    has at least two tab-separated fields once its trailing whitespace is
    stripped, and the genome ids are pairwise distinct, [read_genome_dir]
    returns a mapping with one entry per line, and looking up the genome
    id of a line gives the second field of the stripped line. *)
Theorem read_genome_dir_roundtrip (text : string) :
  (∀ line, line ∈ Py.file_lines text → 2 ≤ length (line_fields line)) →
  NoDup (line_genome_id <$> Py.file_lines text) →
  ∃ m, read_genome_dir text = Ok m
       ∧ size m = length (Py.file_lines text)
       ∧ length (nonempty_lines text) = length (Py.file_lines text)
       ∧ ∀ line, line ∈ Py.file_lines text →
           ∃ gid dir, line_fields line !! 0 = Some gid
                      ∧ line_fields line !! 1 = Some dir
                      ∧ m !! gid = Some dir.
Proof.
  intros Hwf Hnodup. unfold read_genome_dir.
  rewrite read_genome_dir_lines_Ok by done. eexists. split; [done|].
  split_and!.
  - rewrite <- size_dom, store_lines_dom, dom_empty_L, (left_id_L ∅ (∪)).
    rewrite size_list_to_set by done. by rewrite length_fmap.
  - unfold nonempty_lines. f_equal. apply filter_all.
    apply Forall_forall. intros line Hin Heq. specialize (Hwf line Hin).
    subst line. vm_compute in Hwf. lia.
  - intros line Hin. specialize (Hwf line Hin).
    apply list_elem_of_split in Hin as (before & after & Heq).
    rewrite Heq in Hnodup |- *. rewrite fmap_app, fmap_cons in Hnodup.
    apply NoDup_app in Hnodup as (_ & _ & Hnodup).
    apply NoDup_cons in Hnodup as [Hnot _].
    exists (line_genome_id line), (line_genome_dir line).
    split_and!; [..|by apply store_lines_lookup_last].
    + unfold line_genome_id.
      destruct (line_fields line) as [|? [|? ?]]; simpl in *; [lia..|done].
    + unfold line_genome_dir.
      destruct (line_fields line) as [|? [|? ?]]; simpl in *; [lia..|done].
Qed.

Lemma read_genome_dir_roundtrip_witness :
  ∃ m, read_genome_dir ("g1" +:+ Py.tab +:+ "/a" +:+ Py.nl
                        +:+ "g2" +:+ Py.tab +:+ "/b" +:+ Py.nl) = Ok m
       ∧ size m = 2.
Proof.
  destruct (read_genome_dir_roundtrip
              ("g1" +:+ Py.tab +:+ "/a" +:+ Py.nl
               +:+ "g2" +:+ Py.tab +:+ "/b" +:+ Py.nl))
    as (m & Hm & Hsize & _).
  - intros line Hin. each_member Hin ltac:(vm_compute; lia).
  - change (NoDup ["g1"; "g2"]). apply NoDup_cons. split; [|apply NoDup_singleton].
    intros Hin. by apply list_elem_of_singleton in Hin.
  - exists m. split; [exact Hm | exact Hsize].
Defined.

(** C5: a file with a line that has fewer than two tab-separated fields
    once its trailing whitespace is stripped makes [read_genome_dir] raise
    [IndexError]; no mapping is returned, whatever the other lines are. *)
Theorem read_genome_dir_malformed_line (text line : string) :
  line ∈ Py.file_lines text →
  length (Py.split Py.TAB (Py.rstrip line)) < 2 →
  read_genome_dir text = Raise IndexError.
Proof.
  intros Hin Hlen. unfold read_genome_dir.
  by apply read_genome_dir_lines_Raise with line.
Qed.

Lemma read_genome_dir_malformed_line_witness :
  read_genome_dir ("g1" +:+ Py.tab +:+ "/a" +:+ Py.nl
                   +:+ "g2" +:+ Py.tab +:+ Py.nl
                   +:+ "g3" +:+ Py.tab +:+ "/c" +:+ Py.nl)
  = Raise IndexError.
Proof.
  apply (read_genome_dir_malformed_line _ ("g2" +:+ Py.tab +:+ Py.nl)).
  - right. left.
  - vm_compute. lia.
Defined.

(** C7: when the lines of the file all have two fields or more, the
    mapping returned by [read_genome_dir] gives, for a genome id, the
    directory of the last line that carries this id, whether or not earlier
    lines carry it too. *)
Theorem read_genome_dir_last_wins (text : string)
    (before after : list string) (line : string) :
  Py.file_lines text = before ++ line :: after →
  (∀ l, l ∈ Py.file_lines text → 2 ≤ length (line_fields l)) →
  (∀ l, l ∈ after → line_genome_id l ≠ line_genome_id line) →
  ∃ m gid dir, read_genome_dir text = Ok m
               ∧ line_fields line !! 0 = Some gid
               ∧ line_fields line !! 1 = Some dir
               ∧ m !! gid = Some dir.
Proof.
  intros Hlines Hwf Hlast. unfold read_genome_dir.
  rewrite read_genome_dir_lines_Ok by done.
  assert (2 ≤ length (line_fields line)) as Hline.
  { apply Hwf. rewrite Hlines. apply elem_of_app. right. left. }
  exists (foldl store_line ∅ (Py.file_lines text)),
    (line_genome_id line), (line_genome_dir line).
  split_and!; [done|..].
  - unfold line_genome_id.
    destruct (line_fields line) as [|? [|? ?]]; simpl in *; [lia..|done].
  - unfold line_genome_dir.
    destruct (line_fields line) as [|? [|? ?]]; simpl in *; [lia..|done].
  - rewrite Hlines. apply store_lines_lookup_last.
    intros Hin. apply list_elem_of_fmap in Hin as (l & Heq & Hl).
    by apply (Hlast l).
Qed.

Lemma read_genome_dir_last_wins_witness :
  ∃ m, read_genome_dir ("g1" +:+ Py.tab +:+ "/old" +:+ Py.nl
                        +:+ "g1" +:+ Py.tab +:+ "/new" +:+ Py.nl
                        +:+ "g2" +:+ Py.tab +:+ "/b" +:+ Py.nl) = Ok m
       ∧ m !! "g1" = Some "/new".
Proof.
  destruct (read_genome_dir_last_wins
              ("g1" +:+ Py.tab +:+ "/old" +:+ Py.nl
               +:+ "g1" +:+ Py.tab +:+ "/new" +:+ Py.nl
               +:+ "g2" +:+ Py.tab +:+ "/b" +:+ Py.nl)
              ["g1" +:+ Py.tab +:+ "/old" +:+ Py.nl]
              ["g2" +:+ Py.tab +:+ "/b" +:+ Py.nl]
              ("g1" +:+ Py.tab +:+ "/new" +:+ Py.nl))
    as (m & gid & dir & Hm & Hgid & Hdir & Hlook).
  - reflexivity.
  - intros l Hin. each_member Hin ltac:(vm_compute; lia).
  - intros l Hin. each_member Hin ltac:(by vm_compute).
  - exists m. split; [exact Hm|].
    vm_compute in Hgid, Hdir. by simplify_eq.
Defined.

(** ** [read_type_strains] *)

Lemma split_first_field (sep : ascii) (line : string) :
  ∃ x fs, Py.split sep line = x :: fs ∧ is_first_field sep x line.
Proof.
  destruct (split_cons sep line) as (f & fs & Hs & Hf & Hrest).
  exists f, fs. split; [done|]. split; [done|].
  destruct Hrest as [[_ ->]|(rest & -> & _)]; [by left|]. right. by exists rest.
Qed.

(** A line has one first field only. *)
Lemma is_first_field_unique (sep : ascii) (x y line : string) :
  is_first_field sep x line → is_first_field sep y line → x = y.
Proof.
  intros [Hx Hlx] [Hy Hly]. revert y line Hx Hy Hlx Hly.
  induction x as [|c x IH]; intros [|d y] line Hx Hy Hlx Hly; [done|..].
  - destruct Hlx as [->|[rest ->]]; destruct Hly as [[=]|[rest' [=]]];
      subst; simpl in Hy; by rewrite decide_True in Hy.
  - destruct Hly as [->|[rest ->]]; destruct Hlx as [[=]|[rest' [=]]];
      subst; simpl in Hx; by rewrite decide_True in Hx.
  - simpl in Hx, Hy.
    destruct (decide (c = sep)); [done|]. destruct (decide (d = sep)); [done|].
    destruct line as [|e line].
    { destruct Hlx as [[=]|[rest [=]]]. }
    assert (c = e ∧ (line = x ∨ ∃ rest, line = x +:+ String sep rest))
      as [-> Hlx'].
    { destruct Hlx as [[= -> ->]|[rest [= -> ->]]]; eauto. }
    assert (d = e ∧ (line = y ∨ ∃ rest, line = y +:+ String sep rest))
      as [-> Hly'].
    { destruct Hly as [[= -> ->]|[rest [= -> ->]]]; eauto. }
    f_equal. by apply (IH y line).
Qed.

Lemma read_type_strains_line_Ok (taxids : gset string) (line : string) :
  ∃ x, read_type_strains_line taxids line = Ok ({[x]} ∪ taxids)
       ∧ is_first_field Py.TAB x line.
Proof.
  destruct (split_first_field Py.TAB line) as (x & fs & Hs & Hx).
  exists x. split; [|done]. unfold read_type_strains_line. by rewrite Hs.
Qed.

Lemma read_type_strains_lines (taxids : gset string) (lines : list string) :
  ∃ taxids', for_each read_type_strains_line taxids lines = Ok taxids'
    ∧ ∀ x, x ∈ taxids' ↔
           x ∈ taxids ∨ ∃ line, line ∈ lines ∧ is_first_field Py.TAB x line.
Proof.
  revert taxids. induction lines as [|l lines IH]; intros taxids; simpl.
  - exists taxids. split; [done|]. intros x. split; [by left|].
    intros [?|(line & Hin & _)]; [done|]. by apply elem_of_nil in Hin.
  - destruct (read_type_strains_line_Ok taxids l) as (y & -> & Hy). simpl.
    destruct (IH ({[y]} ∪ taxids)) as (taxids' & -> & Hchar).
    exists taxids'. split; [done|]. intros x. rewrite Hchar.
    rewrite elem_of_union, elem_of_singleton. split.
    + intros [[->|?]|(line & Hin & Hx)]; [right|by left|right].
      * exists l. split; [left|done].
      * exists line. split; [by right|done].
    + intros [?|(line & Hin & Hx)]; [left; by right|].
      apply elem_of_cons in Hin as [->|Hin].
      * left. left. by apply (is_first_field_unique Py.TAB x y l).
      * right. by exists line.
Qed.

(** C9: [read_type_strains] always returns a set, and its members are
    exactly the first tab-delimited fields of the lines of the file.  The
    lines are those of the text itself, cut after each newline and taken
    whole, newline included: nothing is stripped before the split, so a
    line without a tab is a member as a whole, and a field met twice is
    one member.  On the two lines [562] and [1280<TAB>x], each ended by
    a newline, the set holds [562] with its newline, and [1280]. *)
Theorem read_type_strains_first_fields :
  (∀ text : string,
     ∃ taxids lines,
       read_type_strains text = Ok taxids
       ∧ lines_of_text text lines
       ∧ (∀ lines', lines_of_text text lines' → lines' = lines)
       ∧ (∀ x, x ∈ taxids ↔
               ∃ line, line ∈ lines ∧ is_first_field Py.TAB x line)
       ∧ (∀ line, line ∈ lines → has_char Py.TAB line = false →
                  line ∈ taxids))
  ∧ read_type_strains ("562" +:+ Py.nl +:+ "1280" +:+ Py.tab +:+ "x" +:+ Py.nl)
    = Ok {[ "562" +:+ Py.nl; "1280" ]}
  ∧ read_type_strains ("7" +:+ Py.tab +:+ "a" +:+ Py.nl
                       +:+ "7" +:+ Py.tab +:+ "b" +:+ Py.nl +:+ "8")
    = Ok {[ "7"; "8" ]}.
Proof.
  split; [|split; reflexivity]. intros text.
  destruct (read_type_strains_lines ∅ (Py.file_lines text))
    as (taxids & Hrun & Hchar).
  exists taxids, (Py.file_lines text). split; [done|]. split_and!.
  - apply lines_of_text_file_lines.
  - intros lines' Hlines'. by apply lines_of_text_unique.
  - intros x. rewrite Hchar. split; [|by right].
    intros [Hin|?]; [|done]. by apply not_elem_of_empty in Hin.
  - intros line Hin Htab. apply Hchar. right. exists line.
    split; [done|]. split; [done|by left].
Qed.

Example read_type_strains_ex :
  read_type_strains ("562" +:+ Py.tab +:+ "Escherichia coli" +:+ Py.nl
                     +:+ "1280" +:+ Py.nl
                     +:+ "562" +:+ Py.tab +:+ "again" +:+ Py.nl
                     +:+ "1313")
  = Ok {[ "562"; "1280" +:+ Py.nl; "1313" ]}.
Proof. reflexivity. Qed.

(** ** [get_type_strains] *)

Section TypeStrains.
Variable accession_to_taxid : gmap string pyval.
Variable type_strain_taxids : gset pyval.

Local Notation step :=
  (get_type_strains_step accession_to_taxid type_strain_taxids).

Lemma get_type_strains_fold (order : list string) (acc : gset string)
    (g : string) :
  g ∈ foldl step acc order ↔
  g ∈ acc ∨ (g ∈ order
             ∧ dict_get accession_to_taxid g (PyInt (-1)) ∈ type_strain_taxids).
Proof.
  revert acc. induction order as [|x order IH]; intros acc; simpl.
  - split; [by left|]. intros [?|[Hin _]]; [done|]. by apply elem_of_nil in Hin.
  - rewrite IH. unfold get_type_strains_step.
    rewrite elem_of_cons. case_decide as Hx.
    + rewrite elem_of_union, elem_of_singleton. split.
      * intros [[->|?]|[? ?]]; auto.
      * intros [?|[[->|?] ?]]; auto.
    + split.
      * intros [?|[? ?]]; auto.
      * intros [?|[[->|?] ?]]; auto. done.
Qed.

(** The result does not depend on the order in which the set is
    iterated. *)
Lemma get_type_strains_loop_spec (order : list string) (g : string) :
  g ∈ get_type_strains_loop order accession_to_taxid type_strain_taxids ↔
  g ∈ order
  ∧ dict_get accession_to_taxid g (PyInt (-1)) ∈ type_strain_taxids.
Proof.
  unfold get_type_strains_loop. rewrite get_type_strains_fold.
  split; [|by right]. intros [Hin|?]; [|done].
  by apply not_elem_of_empty in Hin.
Qed.

Lemma get_type_strains_spec (genome_ids : gset string) (g : string) :
  g ∈ get_type_strains genome_ids accession_to_taxid type_strain_taxids ↔
  g ∈ genome_ids
  ∧ dict_get accession_to_taxid g (PyInt (-1)) ∈ type_strain_taxids.
Proof.
  unfold get_type_strains. by rewrite get_type_strains_loop_spec, elem_of_elements.
Qed.
End TypeStrains.

(** C1: [get_type_strains] returns exactly the genome ids of the input set
    whose taxonomy id, looked up in [accession_to_taxid] with the default
    [-1], belongs to [type_strain_taxids]; for the ids A, B, C with A of
    taxonomy id 1, B of taxonomy id 2 and the type-strain set {1}, the
    result is {A}. *)
Theorem get_type_strains_correct :
  (∀ (genome_ids : gset string) (accession_to_taxid : gmap string pyval)
     (type_strain_taxids : gset pyval),
     get_type_strains genome_ids accession_to_taxid type_strain_taxids
     = filter (λ g, default (PyInt (-1)) (accession_to_taxid !! g)
                    ∈ type_strain_taxids) genome_ids)
  ∧ get_type_strains {["A"; "B"; "C"]}
      (<["A" := PyStr "1"]> (<["B" := PyStr "2"]> ∅)) {[PyStr "1"]}
    = {["A"]}.
Proof.
  assert (∀ (genome_ids : gset string) (accession_to_taxid : gmap string pyval)
     (type_strain_taxids : gset pyval),
     get_type_strains genome_ids accession_to_taxid type_strain_taxids
     = filter (λ g, default (PyInt (-1)) (accession_to_taxid !! g)
                    ∈ type_strain_taxids) genome_ids) as Hgen.
  { intros G A T. apply set_eq. intros g.
    rewrite get_type_strains_spec, elem_of_filter. unfold dict_get. tauto. }
  split; [exact Hgen|].
  apply set_eq. intros g. rewrite get_type_strains_spec.
  unfold dict_get. split.
  - intros [Hin Ht]. apply elem_of_singleton in Ht. apply elem_of_singleton.
    apply elem_of_union in Hin as [Hin|Hin];
      [apply elem_of_union in Hin as [Hin|Hin]|];
      apply elem_of_singleton in Hin; subst g; [done|..];
      vm_compute in Ht; congruence.
  - intros Hg. apply elem_of_singleton in Hg as ->.
    split; [set_solver|]. by apply elem_of_singleton.
Qed.

(** The set of taxonomy identifiers as [read_type_strains] produces it,
    seen as a set of values. *)
Lemma taxid_strings_not_sentinel (taxids : gset string) :
  PyInt (-1) ∉ (set_map PyStr taxids : gset pyval).
Proof. intros Hin. apply elem_of_map in Hin as (s & Heq & _). discriminate. Qed.

(** When the sentinel itself is in the set, a genome id without taxonomy
    id is selected: the hypothesis of C8 on the set is needed. *)
Lemma get_type_strains_sentinel_collision (genome_ids : gset string)
    (accession_to_taxid : gmap string pyval) (type_strain_taxids : gset pyval)
    (g : string) :
  g ∈ genome_ids → accession_to_taxid !! g = None →
  PyInt (-1) ∈ type_strain_taxids →
  g ∈ get_type_strains genome_ids accession_to_taxid type_strain_taxids.
Proof.
  intros Hg Hnone Hin. apply get_type_strains_spec. split; [done|].
  unfold dict_get. by rewrite Hnone.
Qed.

(** C8: [get_type_strains] is a total function into sets (of the empty
    input set it makes the empty set); a genome id absent from
    [accession_to_taxid] resolves to the sentinel [-1], and when every
    member of [type_strain_taxids] is a string, such a genome id is not in
    the result. *)
Theorem get_type_strains_missing_taxid (genome_ids : gset string)
    (accession_to_taxid : gmap string pyval) (type_strain_taxids : gset pyval)
    (g : string) :
  accession_to_taxid !! g = None →
  (∀ v, v ∈ type_strain_taxids → ∃ s, v = PyStr s) →
  dict_get accession_to_taxid g (PyInt (-1)) = PyInt (-1)
  ∧ g ∉ get_type_strains genome_ids accession_to_taxid type_strain_taxids
  ∧ get_type_strains genome_ids accession_to_taxid type_strain_taxids
    ⊆ genome_ids
  ∧ get_type_strains ∅ accession_to_taxid type_strain_taxids = ∅.
Proof.
  intros Hnone Hstr.
  assert (dict_get accession_to_taxid g (PyInt (-1)) = PyInt (-1)) as Hget.
  { unfold dict_get. by rewrite Hnone. }
  split_and!; [done|..].
  - intros Hin. apply get_type_strains_spec in Hin as [_ Hin].
    rewrite Hget in Hin. by destruct (Hstr _ Hin) as [s ?].
  - intros x Hx. by apply get_type_strains_spec in Hx as [? _].
  - apply set_eq. intros x. rewrite get_type_strains_spec. split.
    + by intros [? _].
    + intros Hx. by apply not_elem_of_empty in Hx.
Qed.

Lemma get_type_strains_missing_taxid_witness :
  "C" ∉ get_type_strains {["A"; "B"; "C"]}
          (<["A" := PyStr "1"]> (<["B" := PyStr "2"]> ∅))
          (set_map PyStr ({["1"]} : gset string)).
Proof.
  refine (proj1 (proj2 (get_type_strains_missing_taxid _ _ _ "C" _ _))).
  - reflexivity.
  - intros v Hin. apply elem_of_map in Hin as (s & -> & _). by exists s.
Defined.

(** ** [read_refseq_metadata] *)

Example read_refseq_metadata_ex :
  read_refseq_metadata
    [ ["ncbi_taxid"; "genome"; "ncbi_refseq_category"; "ncbi_assembly_level"];
      ["562"; "RS_GCF_1"; "Reference Genome"; "Complete Genome"];
      ["1280"; "GB_GCA_2"; "representative genome"; "complete genome"];
      ["1313"; "RS_GCF_3"; "na"; "Scaffold"] ] false
  = Ok (<["GCF_3" := "1313"]> (<["GCF_1" := "562"]> ∅),
        {["GCF_1"]}, {["GCF_1"]}).
Proof. reflexivity. Qed.

Section MetadataRow.
Variable keep_db_prefix : bool.

Local Notation row_step := (read_refseq_metadata_row keep_db_prefix).

(** The header row binds the four indices and leaves the three
    structures as they are. *)
Lemma header_row_Ok (st st' : metadata_locals) (header : list string) :
  bHeader st = true → row_step st header = Ok st' →
  ∃ gi ti ai ri,
    Py.index "genome" header = Ok gi
    ∧ Py.index "ncbi_taxid" header = Ok ti
    ∧ Py.index "ncbi_assembly_level" header = Ok ai
    ∧ Py.index "ncbi_refseq_category" header = Ok ri
    ∧ st' = MetadataLocals false gi ti ai ri (accession_to_taxid st)
              (complete_genomes st) (representative_genomes st).
Proof.
  intros Hb. unfold read_refseq_metadata_row. rewrite Hb.
  destruct (Py.index "genome" header) as [gi|]; simpl; [|done].
  destruct (Py.index "ncbi_taxid" header) as [ti|]; simpl; [|done].
  destruct (Py.index "ncbi_assembly_level" header) as [ai|]; simpl; [|done].
  destruct (Py.index "ncbi_refseq_category" header) as [ri|]; simpl; [|done].
  intros [= <-]. by exists gi, ti, ai, ri.
Qed.

(** A header without one of the required columns raises [ValueError] for
    the first of them that is missing. *)
Lemma header_row_missing (st : metadata_locals) (header : list string)
    (col : string) :
  bHeader st = true → col ∈ required_columns → col ∉ header →
  ∃ missing, missing ∈ required_columns ∧ missing ∉ header
             ∧ row_step st header = Raise (ValueError missing).
Proof.
  intros Hb Hcol Hnot. unfold read_refseq_metadata_row. rewrite Hb.
  unfold required_columns in *.
  destruct (decide ("genome" ∈ header)) as [Hg|Hg].
  2:{ exists "genome". rewrite (index_absent _ _ Hg). split_and!; [left|done..]. }
  destruct (index_present _ _ Hg) as (gi & -> & _). simpl.
  destruct (decide ("ncbi_taxid" ∈ header)) as [Ht|Ht].
  2:{ exists "ncbi_taxid". rewrite (index_absent _ _ Ht).
      split_and!; [right; left|done..]. }
  destruct (index_present _ _ Ht) as (ti & -> & _). simpl.
  destruct (decide ("ncbi_assembly_level" ∈ header)) as [Ha|Ha].
  2:{ exists "ncbi_assembly_level". rewrite (index_absent _ _ Ha).
      split_and!; [right; right; left|done..]. }
  destruct (index_present _ _ Ha) as (ai & -> & _). simpl.
  destruct (decide ("ncbi_refseq_category" ∈ header)) as [Hr|Hr].
  2:{ exists "ncbi_refseq_category". rewrite (index_absent _ _ Hr).
      split_and!; [right; right; right; left|done..]. }
  exfalso. repeat (apply elem_of_cons in Hcol as [->|Hcol]; [done|]).
  by apply elem_of_nil in Hcol.
Qed.

(** A data row whose accession does not start with [RS_] changes
    nothing. *)
Lemma data_row_skip (st : metadata_locals) (row : list string) (g : string) :
  bHeader st = false → row !! genome_index st = Some g →
  Py.startswith "RS_" g = false →
  row_step st row = Ok st.
Proof.
  intros Hb Hg Hrs. unfold read_refseq_metadata_row, Py.getitem.
  rewrite Hb, Hg. cbn [mbind result_bind]. by rewrite Hrs.
Qed.

(** What a data row does when the loop goes on after it. *)
Lemma data_row_Ok (st st' : metadata_locals) (row : list string) :
  bHeader st = false → row_step st row = Ok st' →
  ∃ g, row !! genome_index st = Some g
    ∧ (Py.startswith "RS_" g = false ∧ st' = st
       ∨ Py.startswith "RS_" g = true
         ∧ ∃ taxid level category,
             row !! taxid_index st = Some taxid
             ∧ row !! assembly_level_index st = Some level
             ∧ row !! refseq_category_index st = Some category
             ∧ st' = MetadataLocals false (genome_index st) (taxid_index st)
                 (assembly_level_index st) (refseq_category_index st)
                 (<[accession_key keep_db_prefix g := taxid]>
                    (accession_to_taxid st))
                 (if decide (Py.lower level = "complete genome")
                  then {[accession_key keep_db_prefix g]} ∪ complete_genomes st
                  else complete_genomes st)
                 (if Py.contains "reference" (Py.lower category)
                     || Py.contains "representative" (Py.lower category)
                  then {[accession_key keep_db_prefix g]}
                       ∪ representative_genomes st
                  else representative_genomes st)).
Proof.
  intros Hb. unfold read_refseq_metadata_row, Py.getitem. rewrite Hb.
  destruct (row !! genome_index st) as [g|]; cbn [mbind result_bind]; [|done].
  destruct (Py.startswith "RS_" g) eqn:Hrs.
  2:{ intros [= <-]. exists g. split; [done|]. by left. }
  destruct (row !! taxid_index st) as [taxid|]; cbn [mbind result_bind]; [|done].
  destruct (row !! assembly_level_index st) as [level|]; cbn [mbind result_bind]; [|done].
  destruct (row !! refseq_category_index st) as [category|]; cbn [mbind result_bind]; [|done].
  intros [= <-]. exists g. split; [done|]. right. split; [done|].
  by exists taxid, level, category.
Qed.

(** Data rows keep the header flag and the column indices. *)
Lemma data_row_columns (st st' : metadata_locals) (row : list string) :
  bHeader st = false → row_step st row = Ok st' →
  bHeader st' = false ∧ genome_index st' = genome_index st.
Proof.
  intros Hb Hstep.
  destruct (data_row_Ok st st' row Hb Hstep)
    as (g & _ & [[_ ->]|(_ & ? & ? & ? & _ & _ & _ & ->)]); done.
Qed.

Lemma data_rows_columns (st st' : metadata_locals)
    (rows : list (list string)) :
  bHeader st = false → for_each row_step st rows = Ok st' →
  bHeader st' = false ∧ genome_index st' = genome_index st.
Proof.
  intros Hb Hrun.
  apply (for_each_invariant row_step
           (λ s, bHeader s = false ∧ genome_index s = genome_index st)
           rows) with st; [|done..].
  intros s row s' _ [Hs Hgi] Hstep.
  destruct (data_row_columns s s' row Hs Hstep) as [? ?]. split; congruence.
Qed.
End MetadataRow.

Lemma metadata_init_header : bHeader metadata_init = true.
Proof. reflexivity. Qed.

Lemma startswith_GB_not_RS (g : string) :
  Py.startswith "GB_" g = true → Py.startswith "RS_" g = false.
Proof.
  destruct g as [|c g]; [done|]. simpl.
  destruct (decide ("G"%char = c)) as [<-|?]; done.
Qed.

(** C2: a data row whose [genome] value does not start with [RS_] (a
    [GB_] row, for one) contributes nothing: with either value of
    [keep_db_prefix], the outcome of [read_refseq_metadata], the three
    structures or the exception, is the outcome for the file without that
    row. *)
Theorem read_refseq_metadata_skips_row (header : list string)
    (before after : list (list string)) (row : list string)
    (gi : nat) (g : string) (keep_db_prefix : bool) :
  Py.index "genome" header = Ok gi →
  row !! gi = Some g →
  Py.startswith "RS_" g = false →
  read_refseq_metadata (header :: before ++ row :: after) keep_db_prefix
  = read_refseq_metadata (header :: before ++ after) keep_db_prefix.
Proof.
  intros Hgi Hg Hrs. unfold read_refseq_metadata. f_equal.
  cbn [for_each].
  destruct (read_refseq_metadata_row keep_db_prefix metadata_init header)
    as [st1|e] eqn:Hhead; cbn [mbind result_bind]; [|done].
  destruct (header_row_Ok _ _ _ _ metadata_init_header Hhead)
    as (gi' & ti & ai & ri & Hgi' & _ & _ & _ & Hst1).
  assert (gi' = gi) as -> by congruence.
  rewrite !for_each_app.
  destruct (for_each (read_refseq_metadata_row keep_db_prefix) st1 before)
    as [st2|e] eqn:Hbefore; cbn [mbind result_bind]; [|done].
  destruct (data_rows_columns keep_db_prefix st1 st2 before) as [Hb2 Hgi2];
    [by rewrite Hst1|done|].
  cbn [for_each]. rewrite (data_row_skip keep_db_prefix st2 row g); [done..| |done].
  rewrite Hgi2, Hst1. exact Hg.
Qed.

Lemma read_refseq_metadata_skips_row_witness :
  read_refseq_metadata
    [ ["genome"; "ncbi_taxid"; "ncbi_assembly_level"; "ncbi_refseq_category"];
      ["RS_GCF_1"; "562"; "Complete Genome"; "reference genome"];
      ["GB_GCA_2"; "1280"; "Complete Genome"; "representative genome"];
      ["RS_GCF_3"; "1313"; "Scaffold"; "na"] ] false
  = read_refseq_metadata
    [ ["genome"; "ncbi_taxid"; "ncbi_assembly_level"; "ncbi_refseq_category"];
      ["RS_GCF_1"; "562"; "Complete Genome"; "reference genome"];
      ["RS_GCF_3"; "1313"; "Scaffold"; "na"] ] false.
Proof.
  apply (read_refseq_metadata_skips_row _
           [["RS_GCF_1"; "562"; "Complete Genome"; "reference genome"]]
           [["RS_GCF_3"; "1313"; "Scaffold"; "na"]]
           ["GB_GCA_2"; "1280"; "Complete Genome"; "representative genome"]
           0 "GB_GCA_2").
  - reflexivity.
  - reflexivity.
  - apply startswith_GB_not_RS. reflexivity.
Defined.

(** C3: when the header row lacks one of the four required columns,
    [read_refseq_metadata] raises [ValueError] for a required column that
    is missing, whatever the data rows are: the exception comes from the
    header row, and no data row is looked at. *)
Theorem read_refseq_metadata_missing_column (header : list string)
    (rows : list (list string)) (keep_db_prefix : bool) (col : string) :
  col ∈ required_columns → col ∉ header →
  ∃ missing, missing ∈ required_columns ∧ missing ∉ header
    ∧ read_refseq_metadata_row keep_db_prefix metadata_init header
      = Raise (ValueError missing)
    ∧ read_refseq_metadata (header :: rows) keep_db_prefix
      = Raise (ValueError missing).
Proof.
  intros Hcol Hnot.
  destruct (header_row_missing keep_db_prefix metadata_init header col
              metadata_init_header Hcol Hnot) as (missing & Hreq & Hmiss & Hrow).
  exists missing. split_and!; [done..|].
  unfold read_refseq_metadata. cbn [for_each]. by rewrite Hrow.
Qed.

Lemma read_refseq_metadata_missing_column_witness :
  ∃ missing,
    read_refseq_metadata
      [ ["genome"; "ncbi_assembly_level"; "ncbi_refseq_category"];
        ["RS_GCF_1"; "Complete Genome"; "reference genome"];
        [] ] false
    = Raise (ValueError missing).
Proof.
  destruct (read_refseq_metadata_missing_column
              ["genome"; "ncbi_assembly_level"; "ncbi_refseq_category"]
              [ ["RS_GCF_1"; "Complete Genome"; "reference genome"]; [] ]
              false "ncbi_taxid") as (missing & _ & _ & _ & Hread).
  - right. left.
  - intros Hin. repeat (apply elem_of_cons in Hin as [[=]|Hin]).
    by apply elem_of_nil in Hin.
  - exists missing. exact Hread.
Defined.

(** The two sets stay within the keys of the mapping all along the loop. *)
Lemma metadata_rows_sets_in_dom (keep_db_prefix : bool)
    (metadata_file : list (list string)) (st : metadata_locals) :
  for_each (read_refseq_metadata_row keep_db_prefix) metadata_init
    metadata_file = Ok st →
  complete_genomes st ⊆ dom (accession_to_taxid st)
  ∧ representative_genomes st ⊆ dom (accession_to_taxid st).
Proof.
  intros Hrun.
  apply (for_each_invariant (read_refseq_metadata_row keep_db_prefix)
           (λ s, complete_genomes s ⊆ dom (accession_to_taxid s)
                 ∧ representative_genomes s ⊆ dom (accession_to_taxid s))
           metadata_file) with metadata_init; [|done..].
  clear. intros s row s' _ [Hc Hr] Hstep.
  destruct (bHeader s) eqn:Hb.
  - destruct (header_row_Ok _ _ _ _ Hb Hstep)
      as (? & ? & ? & ? & _ & _ & _ & _ & ->). done.
  - destruct (data_row_Ok _ _ _ _ Hb Hstep)
      as (g & _ & [[_ ->]|(_ & ? & ? & ? & _ & _ & _ & ->)]); [done|].
    cbn [accession_to_taxid complete_genomes representative_genomes].
    rewrite dom_insert_L. split.
    + case_decide; set_solver.
    + destruct (_ || _); set_solver.
Qed.

(** C10: in what [read_refseq_metadata] returns, every member of
    [complete_genomes] and of [representative_genomes] is a key of
    [accession_to_taxid]. *)
Theorem read_refseq_metadata_sets_have_taxid
    (metadata_file : list (list string)) (keep_db_prefix : bool)
    (a2t : gmap string string) (complete representative : gset string) :
  read_refseq_metadata metadata_file keep_db_prefix
  = Ok (a2t, complete, representative) →
  complete ⊆ dom a2t ∧ representative ⊆ dom a2t.
Proof.
  unfold read_refseq_metadata.
  destruct (for_each (read_refseq_metadata_row keep_db_prefix) metadata_init
              metadata_file) as [st|e] eqn:Hrun; cbn [mbind result_bind]; [|done].
  intros [= <- <- <-]. by apply (metadata_rows_sets_in_dom keep_db_prefix metadata_file).
Qed.

Lemma read_refseq_metadata_sets_have_taxid_witness :
  ({["GCF_1"]} : gset string) ⊆ dom (<["GCF_3" := "1313"]> (<["GCF_1" := "562"]> (∅ : gmap string string))).
Proof.
  refine (proj1 (read_refseq_metadata_sets_have_taxid
    [ ["ncbi_taxid"; "genome"; "ncbi_refseq_category"; "ncbi_assembly_level"];
      ["562"; "RS_GCF_1"; "Reference Genome"; "Complete Genome"];
      ["1280"; "GB_GCA_2"; "representative genome"; "complete genome"];
      ["1313"; "RS_GCF_3"; "na"; "Scaffold"] ] false _ _ {["GCF_1"]} _)).
  reflexivity.
Defined.

(** *** Accession keys *)

Lemma remove_from_absent (old s : string) :
  Py.contains old s = false → Py.remove_from old 0 s = s.
Proof.
  induction s as [|c s IH]; [done|]. intros Hc.
  cbn [Py.contains] in Hc. apply orb_false_iff in Hc as [Hp Hs].
  cbn [Py.remove_from]. rewrite Hp. by rewrite IH.
Qed.

Lemma remove_absent (old s : string) :
  Py.contains old s = false → Py.remove old s = s.
Proof. destruct old; [done|]. apply remove_from_absent. Qed.

Lemma startswith_contains (p s : string) :
  Py.startswith p s = true → Py.contains p s = true.
Proof. intros Hp. destruct s; cbn [Py.contains]; by rewrite Hp. Qed.

Lemma contains_cons (p s : string) (c : ascii) :
  Py.contains p s = true → Py.contains p (String c s) = true.
Proof. intros Hp. cbn [Py.contains]. rewrite Hp. apply orb_true_r. Qed.

(** An occurrence of a pattern holds an occurrence of the pattern without
    its first character. *)
Lemma contains_tail (c : ascii) (p s : string) :
  Py.contains (String c p) s = true → Py.contains p s = true.
Proof.
  induction s as [|d s IH]; [done|]. intros Hc.
  cbn [Py.contains] in Hc. apply orb_true_iff in Hc as [Hp|Hs].
  - cbn [Py.startswith] in Hp. destruct (decide (c = d)); [|done].
    by apply contains_cons, startswith_contains.
  - by apply contains_cons, IH.
Qed.

Lemma contains_tail_false (c : ascii) (p s : string) :
  Py.contains p s = false → Py.contains (String c p) s = false.
Proof.
  intros Hp. destruct (Py.contains (String c p) s) eqn:Hc; [|done].
  apply contains_tail in Hc. congruence.
Qed.

(** On an accession made of [RS_] and a text in which neither [S_] nor
    [B_] occurs, stripping gives that text, free of both prefixes. *)
Lemma strip_db_prefix_clean (rest : string) :
  Py.contains "S_" rest = false → Py.contains "B_" rest = false →
  strip_db_prefix ("RS_" +:+ rest) = rest
  ∧ Py.contains "RS_" rest = false ∧ Py.contains "GB_" rest = false.
Proof.
  intros HS HB.
  assert (Py.contains "RS_" rest = false) as HRS by by apply contains_tail_false.
  assert (Py.contains "GB_" rest = false) as HGB by by apply contains_tail_false.
  split; [|done]. unfold strip_db_prefix.
  assert (Py.remove "RS_" ("RS_" +:+ rest) = Py.remove "RS_" rest) as ->.
  { unfold Py.remove. destruct rest; reflexivity. }
  rewrite (remove_absent "RS_" rest HRS). by apply remove_absent.
Qed.

(** C6, as stated, fails: deleting the occurrences of [RS_] (or of [GB_])
    can bring the pieces of another one together, and the text is not
    scanned again. *)
Lemma read_refseq_metadata_prefix_counterexample :
  read_refseq_metadata
    [ ["genome"; "ncbi_taxid"; "ncbi_assembly_level"; "ncbi_refseq_category"];
      ["RS_RRS_S_"; "562"; "Complete Genome"; "reference genome"];
      ["RS_GGB_B_"; "1280"; "Scaffold"; "na"] ] false
  = Ok (<["GB_" := "1280"]> (<["RS_" := "562"]> ∅), {["RS_"]}, {["RS_"]})
  ∧ Py.contains "RS_" "RS_" = true
  ∧ Py.contains "GB_" "GB_" = true.
Proof. split_and!; reflexivity. Qed.

Section MetadataKeys.
Variable keep_db_prefix : bool.

Local Notation row_step := (read_refseq_metadata_row keep_db_prefix).

(** Every key the data rows add is the key of a retained row. *)
Lemma data_rows_keys_from (st st' : metadata_locals)
    (rows : list (list string)) :
  bHeader st = false → for_each row_step st rows = Ok st' →
  ∀ k, k ∈ dom (accession_to_taxid st') →
       k ∈ dom (accession_to_taxid st)
       ∨ retained_key keep_db_prefix (genome_index st) rows k.
Proof.
  intros Hb Hrun.
  enough (bHeader st' = false ∧ genome_index st' = genome_index st
          ∧ ∀ k, k ∈ dom (accession_to_taxid st') →
                 k ∈ dom (accession_to_taxid st)
                 ∨ retained_key keep_db_prefix (genome_index st) rows k)
    as (_ & _ & H) by done.
  apply (for_each_invariant row_step
           (λ s, bHeader s = false ∧ genome_index s = genome_index st
                 ∧ ∀ k, k ∈ dom (accession_to_taxid s) →
                        k ∈ dom (accession_to_taxid st)
                        ∨ retained_key keep_db_prefix (genome_index st) rows k)
           rows) with st; [|by auto|done].
  intros s row s' Hrow (Hs & Hgi & Hkeys) Hstep.
  destruct (data_row_Ok _ _ _ _ Hs Hstep)
    as (g & Hg & [[_ ->]|(Hrs & taxid & ? & ? & _ & _ & _ & ->)]); [done|].
  cbn [accession_to_taxid bHeader genome_index]. split_and!; [done..|].
  intros k. rewrite dom_insert_L, elem_of_union, elem_of_singleton.
  intros [->|Hk]; [|by apply Hkeys].
  right. exists row, g. by rewrite <- Hgi.
Qed.

(** Keys are never removed, and every retained row leaves its key. *)
Lemma data_rows_keys_to (st st' : metadata_locals)
    (rows : list (list string)) :
  bHeader st = false → for_each row_step st rows = Ok st' →
  dom (accession_to_taxid st) ⊆ dom (accession_to_taxid st')
  ∧ ∀ k, retained_key keep_db_prefix (genome_index st) rows k →
         k ∈ dom (accession_to_taxid st').
Proof.
  revert st. induction rows as [|row rows IH]; intros st Hb Hrun.
  - cbn [for_each] in Hrun. injection Hrun as <-. split; [done|].
    intros k (r & g & Hin & _). by apply elem_of_nil in Hin.
  - cbn [for_each] in Hrun.
    destruct (row_step st row) as [st1|e] eqn:Hstep;
      cbn [mbind result_bind] in Hrun; [|done].
    destruct (data_row_columns _ _ _ _ Hb Hstep) as [Hb1 Hgi1].
    destruct (IH st1 Hb1 Hrun) as [Hmono Hto]. rewrite Hgi1 in Hto.
    assert (dom (accession_to_taxid st) ⊆ dom (accession_to_taxid st1)
            ∧ ∀ g, row !! genome_index st = Some g →
                   Py.startswith "RS_" g = true →
                   accession_key keep_db_prefix g
                   ∈ dom (accession_to_taxid st1)) as [Hmono1 Hrow].
    { destruct (data_row_Ok _ _ _ _ Hb Hstep)
        as (g & Hg & [[Hrs ->]|(Hrs & taxid & ? & ? & _ & _ & _ & ->)]).
      - split; [done|]. intros g' Hg' Hrs'. congruence.
      - cbn [accession_to_taxid]. rewrite dom_insert_L. split; [set_solver|].
        intros g' Hg' _. assert (g' = g) as -> by congruence. set_solver. }
    split; [by etrans|].
    intros k (r & g & Hin & Hg & Hrs & ->).
    apply elem_of_cons in Hin as [->|Hin].
    + apply Hmono. by apply Hrow.
    + apply Hto. by exists r, g.
Qed.

(** The keys of the returned mapping are the keys of the retained
    rows. *)
Lemma read_refseq_metadata_dom (header : list string)
    (rows : list (list string)) (a2t : gmap string string)
    (complete representative : gset string) :
  read_refseq_metadata (header :: rows) keep_db_prefix
  = Ok (a2t, complete, representative) →
  ∃ gi, Py.index "genome" header = Ok gi
        ∧ complete ⊆ dom a2t ∧ representative ⊆ dom a2t
        ∧ ∀ k, k ∈ dom a2t ↔ retained_key keep_db_prefix gi rows k.
Proof.
  unfold read_refseq_metadata.
  destruct (for_each row_step metadata_init (header :: rows))
    as [st|e] eqn:Hrun; cbn [mbind result_bind]; [|done].
  intros [= <- <- <-].
  destruct (metadata_rows_sets_in_dom _ _ _ Hrun) as [Hc Hr].
  cbn [for_each] in Hrun.
  destruct (row_step metadata_init header) as [st1|e] eqn:Hhead;
    cbn [mbind result_bind] in Hrun; [|done].
  destruct (header_row_Ok _ _ _ _ metadata_init_header Hhead)
    as (gi & ti & ai & ri & Hgi & _ & _ & _ & Hst1).
  exists gi. split_and!; [done..|].
  assert (bHeader st1 = false) as Hb1 by by rewrite Hst1.
  assert (genome_index st1 = gi) as Hgi1 by by rewrite Hst1.
  assert (dom (accession_to_taxid st1) = ∅) as Hdom1.
  { rewrite Hst1. cbn [accession_to_taxid metadata_init]. apply dom_empty_L. }
  intros k. split.
  - intros Hk.
    destruct (data_rows_keys_from st1 st rows Hb1 Hrun k Hk) as [Hk1|Hk1].
    + rewrite Hdom1 in Hk1. by apply not_elem_of_empty in Hk1.
    + by rewrite Hgi1 in Hk1.
  - intros Hk. apply (data_rows_keys_to st1 st rows Hb1 Hrun).
    by rewrite Hgi1.
Qed.
End MetadataKeys.

(** C6 (amended): in what [read_refseq_metadata] returns, every key of
    [accession_to_taxid] and every member of the two sets is the key of a
    data row whose [genome] value [g] starts with [RS_], and every such row
    has its key in the mapping.  With [keep_db_prefix] the key is [g]
    itself; without it the key is [g] after one left-to-right deletion of
    the occurrences of [RS_] followed by one of the occurrences of [GB_],
    and when [g] is [RS_] followed by a text in which neither [S_] nor
    [B_] occurs, the key is that text and contains neither [RS_] nor
    [GB_]. *)
Theorem read_refseq_metadata_keys (header : list string)
    (rows : list (list string)) (keep_db_prefix : bool)
    (a2t : gmap string string) (complete representative : gset string) :
  read_refseq_metadata (header :: rows) keep_db_prefix
  = Ok (a2t, complete, representative) →
  ∃ gi, Py.index "genome" header = Ok gi
    ∧ (∀ k, k ∈ dom a2t ∨ k ∈ complete ∨ k ∈ representative →
         ∃ row g, row ∈ rows ∧ row !! gi = Some g
           ∧ Py.startswith "RS_" g = true
           ∧ k = (if keep_db_prefix then g
                  else Py.remove "GB_" (Py.remove "RS_" g))
           ∧ (keep_db_prefix = false →
              ∀ rest, g = "RS_" +:+ rest →
                Py.contains "S_" rest = false →
                Py.contains "B_" rest = false →
                k = rest ∧ Py.contains "RS_" k = false
                ∧ Py.contains "GB_" k = false))
    ∧ (∀ row g, row ∈ rows → row !! gi = Some g →
         Py.startswith "RS_" g = true →
         (if keep_db_prefix then g else Py.remove "GB_" (Py.remove "RS_" g))
         ∈ dom a2t).
Proof.
  intros Hread.
  destruct (read_refseq_metadata_dom keep_db_prefix header rows a2t complete
              representative Hread) as (gi & Hgi & Hc & Hr & Hdom).
  exists gi. split_and!; [done|..].
  - intros k Hk.
    assert (k ∈ dom a2t) as Hk' by (destruct Hk as [?|[?|?]]; auto).
    apply Hdom in Hk' as (row & g & Hin & Hg & Hrs & Hkey).
    exists row, g. split_and!; [done..|].
    intros -> rest -> HS HB. cbn [accession_key] in Hkey.
    destruct (strip_db_prefix_clean rest HS HB) as (Hstrip & HRS & HGB).
    rewrite Hstrip in Hkey. by subst k.
  - intros row g Hin Hg Hrs. apply Hdom. by exists row, g.
Qed.

Lemma read_refseq_metadata_keys_witness :
  ∃ gi,
    Py.index "genome"
      ["ncbi_taxid"; "genome"; "ncbi_refseq_category"; "ncbi_assembly_level"]
    = Ok gi
    ∧ (∀ row g,
         row ∈ [ ["562"; "RS_GCF_1"; "Reference Genome"; "Complete Genome"];
                 ["1280"; "GB_GCA_2"; "representative genome"; "complete genome"];
                 ["1313"; "RS_GCF_3"; "na"; "Scaffold"] ] →
         row !! gi = Some g → Py.startswith "RS_" g = true →
         Py.remove "GB_" (Py.remove "RS_" g)
         ∈ dom (<["GCF_3" := "1313"]> (<["GCF_1" := "562"]>
                                         (∅ : gmap string string)))).
Proof.
  destruct (read_refseq_metadata_keys
    ["ncbi_taxid"; "genome"; "ncbi_refseq_category"; "ncbi_assembly_level"]
    [ ["562"; "RS_GCF_1"; "Reference Genome"; "Complete Genome"];
      ["1280"; "GB_GCA_2"; "representative genome"; "complete genome"];
      ["1313"; "RS_GCF_3"; "na"; "Scaffold"] ] false
    (<["GCF_3" := "1313"]> (<["GCF_1" := "562"]> ∅)) {["GCF_1"]} {["GCF_1"]})
    as (gi & Hgi & _ & Hto).
  - reflexivity.
  - exists gi. split; [exact Hgi | exact Hto].
Defined.

(** * Further properties of the module *)

(** ** [read_genome_dir]: outcome, keys, concatenation *)

(** The loop either stores every line or stops with [IndexError]. *)
Lemma read_genome_dir_lines_outcome (m : gmap string string)
    (lines : list string) :
  (Forall (λ l, 2 ≤ length (line_fields l)) lines
   ∧ for_each read_genome_dir_line m lines = Ok (foldl store_line m lines))
  ∨ (∃ line, line ∈ lines ∧ length (line_fields line) < 2
             ∧ for_each read_genome_dir_line m lines = Raise IndexError).
Proof.
  destruct (decide (Forall (λ l, 2 ≤ length (line_fields l)) lines))
    as [Hall|Hnot].
  - left. split; [done|]. apply read_genome_dir_lines_Ok.
    by apply Forall_forall.
  - right. apply not_Forall_Exists in Hnot; [|apply _].
    apply Exists_exists in Hnot as (line & Hin & Hlen). simpl in Hlen.
    exists line. split_and!; [done|lia|].
    apply read_genome_dir_lines_Raise with line; [done|lia].
Qed.

(** [read_genome_dir] returns a mapping exactly when every line of the
    file has two tab-separated fields or more once stripped, and the only
    exception it raises is [IndexError]. *)
Theorem read_genome_dir_returns_iff (text : string) :
  ((∃ m, read_genome_dir text = Ok m) ↔
   ∀ line, line ∈ Py.file_lines text →
           2 ≤ length (Py.split Py.TAB (Py.rstrip line)))
  ∧ ∀ e, read_genome_dir text = Raise e → e = IndexError.
Proof.
  unfold read_genome_dir.
  destruct (read_genome_dir_lines_outcome ∅ (Py.file_lines text))
    as [[Hall ->]|(line & Hin & Hlen & ->)].
  - split_and!.
    + split; [|by eauto]. intros _ line Hin.
      by apply (proj1 (Forall_forall _ _) Hall).
    + done.
  - split_and!.
    + split; [by intros [m ?]|]. intros Hall. specialize (Hall line Hin).
      unfold line_fields in Hlen. lia.
    + by intros e [= <-].
Qed.

Lemma store_lines_lookup_inv (m : gmap string string) (lines : list string)
    (k v : string) :
  foldl store_line m lines !! k = Some v →
  m !! k = Some v
  ∨ ∃ line, line ∈ lines ∧ line_genome_id line = k ∧ line_genome_dir line = v.
Proof.
  revert m. induction lines as [|l lines IH]; intros m; simpl; [by left|].
  intros Hk. destruct (IH _ Hk) as [Hm|(line & Hin & ? & ?)].
  - unfold store_line in Hm. apply lookup_insert_Some in Hm as [[<- <-]|[_ Hm]].
    + right. exists l. split; [left|done].
    + by left.
  - right. exists line. split; [by right|done].
Qed.

Lemma size_list_to_set_le (l : list string) :
  size (list_to_set l : gset string) ≤ length l.
Proof.
  induction l as [|x l IH]; simpl; [done|].
  rewrite size_union_alt, size_singleton.
  assert (size (list_to_set l ∖ {[x]} : gset string)
          ≤ size (list_to_set l : gset string)); [|lia].
  apply subseteq_size. set_solver.
Qed.

(** The keys of the returned mapping are exactly the first fields of the
    lines, so there are at most as many entries as lines, and every entry
    is the pair of the first two fields of some line. *)
Theorem read_genome_dir_entries (text : string) (m : gmap string string) :
  read_genome_dir text = Ok m →
  dom m = list_to_set (line_genome_id <$> Py.file_lines text)
  ∧ size m ≤ length (Py.file_lines text)
  ∧ ∀ k v, m !! k = Some v →
      ∃ line, line ∈ Py.file_lines text
              ∧ Py.split Py.TAB (Py.rstrip line) !! 0 = Some k
              ∧ Py.split Py.TAB (Py.rstrip line) !! 1 = Some v.
Proof.
  unfold read_genome_dir.
  destruct (read_genome_dir_lines_outcome ∅ (Py.file_lines text))
    as [[Hall ->]|(line & Hin & Hlen & ->)]; [|done].
  intros [= <-].
  assert (dom (foldl store_line ∅ (Py.file_lines text))
          = list_to_set (line_genome_id <$> Py.file_lines text)) as Hdom.
  { by rewrite store_lines_dom, dom_empty_L, (left_id_L ∅ (∪)). }
  split_and!; [done|..].
  - rewrite <- size_dom, Hdom.
    etrans; [apply size_list_to_set_le|]. by rewrite length_fmap.
  - intros k v Hk.
    apply store_lines_lookup_inv in Hk as [Hk|(line & Hin & <- & <-)];
      [by rewrite lookup_empty in Hk|].
    exists line. split; [done|].
    pose proof (proj1 (Forall_forall _ _) Hall line Hin) as Hlen.
    cbn beta in Hlen.
    unfold line_genome_id, line_genome_dir. fold (line_fields line).
    destruct (line_fields line) as [|? [|? ?]]; simpl in *; [lia..|done].
Qed.

Lemma read_genome_dir_entries_witness :
  size (<["g1" := "/new"]> (∅ : gmap string string)) ≤ 2.
Proof.
  refine (proj1 (proj2 (read_genome_dir_entries
    ("g1" +:+ Py.tab +:+ "/old" +:+ Py.nl
     +:+ "g1" +:+ Py.tab +:+ "/new" +:+ Py.nl) _ _))).
  reflexivity.
Defined.

Lemma file_lines_nil (text : string) : Py.file_lines text = [] → text = "".
Proof.
  destruct text as [|c text]; [done|]. simpl.
  destruct (decide (c = Py.NL)); [done|].
  by destruct (Py.file_lines text).
Qed.

(** A text that ends a line can be read on its own: the lines of what
    follows are not affected. *)
Lemma file_lines_app (s t : string) :
  Py.file_lines ((s +:+ Py.nl) +:+ t)
  = Py.file_lines (s +:+ Py.nl) ++ Py.file_lines t.
Proof.
  induction s as [|c s IH].
  - reflexivity.
  - rewrite !app_String. simpl. destruct (decide (c = Py.NL)).
    + by rewrite IH.
    + rewrite IH. destruct (Py.file_lines (s +:+ Py.nl)) as [|l ls] eqn:Hl; [|done].
      apply file_lines_nil in Hl. by destruct s.
Qed.

(** Every line is a text without newline, followed or not by a newline. *)
Lemma file_lines_shape (text line : string) :
  line ∈ Py.file_lines text →
  ∃ body, has_char Py.NL body = false
          ∧ (line = body ∨ line = body +:+ Py.nl).
Proof.
  revert line. induction text as [|c text IH]; intros line; simpl.
  { intros Hin. by apply elem_of_nil in Hin. }
  destruct (decide (c = Py.NL)) as [->|Hc].
  - intros Hin. apply elem_of_cons in Hin as [->|Hin]; [|by apply IH].
    exists "". split; [done|]. by right.
  - destruct (Py.file_lines text) as [|l ls] eqn:Hl.
    + intros Hin. apply list_elem_of_singleton in Hin as ->.
      exists (String c ""). split; [|by left]. simpl. by rewrite decide_False.
    + intros Hin. apply elem_of_cons in Hin as [->|Hin].
      * destruct (IH l) as (body & Hbody & Hline); [left|].
        exists (String c body). split; [simpl; by rewrite decide_False|].
        destruct Hline as [->| ->]; [by left|by right].
      * apply IH. by right.
Qed.

Lemma isspace_NL : Py.isspace Py.NL = true.
Proof. reflexivity. Qed.

Lemma rstrip_app_nl (body : string) :
  Py.rstrip (body +:+ Py.nl) = Py.rstrip body.
Proof.
  induction body as [|c body IH]; [reflexivity|].
  rewrite app_String. simpl. by rewrite IH.
Qed.

Lemma rstrip_has_char (c : ascii) (s : string) :
  has_char c s = false → has_char c (Py.rstrip s) = false.
Proof.
  induction s as [|a s IH]; [done|]. simpl.
  destruct (decide (a = c)) as [|Hne]; [done|]. intros Hs.
  specialize (IH Hs). destruct (Py.rstrip s) as [|b r].
  - destruct (Py.isspace a); [done|]. simpl. by rewrite decide_False.
  - cbn [has_char]. by rewrite decide_False.
Qed.

(** A stripped line of a file holds no newline. *)
Lemma rstrip_line_no_NL (text line : string) :
  line ∈ Py.file_lines text → has_char Py.NL (Py.rstrip line) = false.
Proof.
  intros Hin. destruct (file_lines_shape text line Hin)
    as (body & Hbody & [->| ->]).
  - by apply rstrip_has_char.
  - rewrite rstrip_app_nl. by apply rstrip_has_char.
Qed.

(** The fields of a split hold no separator, and no character that the
    text does not hold. *)
Lemma split_fields_no_sep (sep : ascii) (s : string) :
  Forall (λ f, has_char sep f = false) (Py.split sep s).
Proof.
  induction s as [|a s IH]; simpl; [by repeat constructor|].
  destruct (decide (a = sep)) as [|Hne]; [by constructor|].
  destruct (Py.split sep s) as [|f fs]; [repeat constructor|].
  - simpl. by rewrite decide_False.
  - apply Forall_cons in IH as [Hf Hfs]. constructor; [|done].
    simpl. by rewrite decide_False.
Qed.

Lemma split_fields_has_char (sep c : ascii) (s : string) :
  has_char c s = false →
  Forall (λ f, has_char c f = false) (Py.split sep s).
Proof.
  induction s as [|a s IH]; simpl; [by repeat constructor|].
  destruct (decide (a = c)) as [|Hne]; [done|]. intros Hs. specialize (IH Hs).
  destruct (decide (a = sep)); [by constructor|].
  destruct (Py.split sep s) as [|f fs]; [repeat constructor|].
  - simpl. by rewrite decide_False.
  - apply Forall_cons in IH as [Hf Hfs]. constructor; [|done].
    simpl. by rewrite decide_False.
Qed.

Lemma store_lines_union (m : gmap string string) (lines : list string) :
  foldl store_line m lines = foldl store_line ∅ lines ∪ m.
Proof.
  revert m. induction lines as [|l lines IH]; intros m; simpl.
  - by rewrite (left_id_L ∅ (∪)).
  - rewrite (IH (store_line m l)), (IH (store_line ∅ l)).
    rewrite <- (assoc_L (∪)). f_equal. unfold store_line.
    by rewrite <- insert_union_l, (left_id_L ∅ (∪)).
Qed.

Lemma read_genome_dir_lines_from (m : gmap string string)
    (lines : list string) :
  for_each read_genome_dir_line m lines
  = m' ← for_each read_genome_dir_line ∅ lines; Ok (m' ∪ m).
Proof.
  destruct (read_genome_dir_lines_outcome ∅ lines)
    as [[Hall ->]|(line & Hin & Hlen & ->)]; cbn [mbind result_bind].
  - rewrite read_genome_dir_lines_Ok by by apply Forall_forall.
    by rewrite store_lines_union.
  - by apply read_genome_dir_lines_Raise with line.
Qed.

(** Reading two files written one after the other, the first one ending
    its last line: the outcome is that of reading the first, then the
    second, and letting the entries of the second override those of the
    first; an exception of the first comes before one of the second. *)
Theorem read_genome_dir_concat (s t : string) :
  read_genome_dir ((s +:+ Py.nl) +:+ t)
  = m1 ← read_genome_dir (s +:+ Py.nl);
    m2 ← read_genome_dir t;
    Ok (m2 ∪ m1).
Proof.
  unfold read_genome_dir. rewrite file_lines_app, for_each_app.
  destruct (for_each read_genome_dir_line ∅ (Py.file_lines (s +:+ Py.nl)))
    as [m1|e]; cbn [mbind result_bind]; [|done].
  apply read_genome_dir_lines_from.
Qed.

(** No key and no value of the returned mapping holds a tab or a
    newline. *)
Theorem read_genome_dir_no_separator (text : string)
    (m : gmap string string) (k v : string) :
  read_genome_dir text = Ok m → m !! k = Some v →
  has_char Py.TAB k = false ∧ has_char Py.NL k = false
  ∧ has_char Py.TAB v = false ∧ has_char Py.NL v = false.
Proof.
  unfold read_genome_dir.
  destruct (read_genome_dir_lines_outcome ∅ (Py.file_lines text))
    as [[Hall ->]|(line & Hin & Hlen & ->)]; [|done].
  intros [= <-] Hk.
  apply store_lines_lookup_inv in Hk as [Hk|(line & Hin & <- & <-)];
    [by rewrite lookup_empty in Hk|].
  pose proof (split_fields_no_sep Py.TAB (Py.rstrip line)) as Htab.
  pose proof (split_fields_has_char Py.TAB Py.NL (Py.rstrip line)
                (rstrip_line_no_NL text line Hin)) as Hnl.
  unfold line_genome_id, line_genome_dir, line_fields.
  destruct (Py.split Py.TAB (Py.rstrip line)) as [|f0 [|f1 fs]]; simpl.
  - done.
  - apply Forall_cons in Htab as [? _]. apply Forall_cons in Hnl as [? _]. done.
  - apply Forall_cons in Htab as [? Htab]. apply Forall_cons in Hnl as [? Hnl].
    apply Forall_cons in Htab as [? _]. apply Forall_cons in Hnl as [? _]. done.
Qed.

Lemma read_genome_dir_no_separator_witness :
  has_char Py.TAB "g1" = false ∧ has_char Py.NL "g1" = false
  ∧ has_char Py.TAB "/a" = false ∧ has_char Py.NL "/a" = false.
Proof.
  apply (read_genome_dir_no_separator
           ("g1" +:+ Py.tab +:+ "/a" +:+ Py.nl +:+ "g2" +:+ Py.tab +:+ "/b")
           (<["g2" := "/b"]> (<["g1" := "/a"]> ∅))).
  - reflexivity.
  - reflexivity.
Defined.

(** ** [read_refseq_metadata]: outcome, entries, classification *)

Section MetadataTables.
Variable keep_db_prefix : bool.

Local Notation row_step := (read_refseq_metadata_row keep_db_prefix).

(** The header row, read from the initial state. *)
Lemma header_row_columns (header : list string) :
  row_step metadata_init header
  = c ← header_columns header;
    Ok (MetadataLocals false (col_genome c) (col_taxid c) (col_level c)
          (col_category c) ∅ ∅ ∅).
Proof.
  unfold read_refseq_metadata_row, header_columns. cbn [bHeader metadata_init].
  destruct (Py.index "genome" header); cbn [mbind result_bind]; [|done].
  destruct (Py.index "ncbi_taxid" header); cbn [mbind result_bind]; [|done].
  destruct (Py.index "ncbi_assembly_level" header);
    cbn [mbind result_bind]; [|done].
  by destruct (Py.index "ncbi_refseq_category" header).
Qed.

Lemma at_columns_header (c : columns) :
  at_columns c (MetadataLocals false (col_genome c) (col_taxid c)
                  (col_level c) (col_category c) ∅ ∅ ∅).
Proof. by repeat split. Qed.

(** A data row is got through exactly when it is readable; otherwise the
    exception is [IndexError]. *)
Lemma data_row_outcome (c : columns) (st : metadata_locals)
    (row : list string) :
  at_columns c st →
  (row_readable c row ∧ ∃ st', row_step st row = Ok st' ∧ at_columns c st')
  ∨ (¬ row_readable c row ∧ row_step st row = Raise IndexError).
Proof.
  intros (Hb & Hgi & Hti & Hai & Hri).
  unfold read_refseq_metadata_row, Py.getitem, row_readable.
  rewrite Hb, Hgi, Hti, Hai, Hri.
  destruct (row !! col_genome c) as [g|]; cbn [mbind result_bind].
  2:{ right. split; [by intros (g & ? & _)|done]. }
  destruct (Py.startswith "RS_" g) eqn:Hrs.
  2:{ left. split; [exists g; split; [done|intros ?; congruence]|].
      exists st. split; [done|]. by repeat split. }
  destruct (row !! col_taxid c) as [t|]; cbn [mbind result_bind].
  2:{ right. split; [|done]. intros (g' & [= <-] & H).
      destruct (H Hrs) as ([? ?] & _). done. }
  destruct (row !! col_level c) as [l|]; cbn [mbind result_bind].
  2:{ right. split; [|done]. intros (g' & [= <-] & H).
      destruct (H Hrs) as (_ & [? ?] & _). done. }
  destruct (row !! col_category c) as [r|]; cbn [mbind result_bind].
  2:{ right. split; [|done]. intros (g' & [= <-] & H).
      destruct (H Hrs) as (_ & _ & [? ?]). done. }
  left. split; [exists g; split; [done|]; intros _; by eauto|].
  eexists. split; [done|]. by repeat split.
Qed.

Lemma data_rows_outcome (c : columns) (st : metadata_locals)
    (rows : list (list string)) :
  at_columns c st →
  (Forall (row_readable c) rows
   ∧ ∃ st', for_each row_step st rows = Ok st' ∧ at_columns c st')
  ∨ (¬ Forall (row_readable c) rows
     ∧ for_each row_step st rows = Raise IndexError).
Proof.
  revert st. induction rows as [|row rows IH]; intros st Hst.
  - left. split; [done|]. by exists st.
  - cbn [for_each].
    destruct (data_row_outcome c st row Hst)
      as [(Hrow & st1 & -> & Hst1)|(Hrow & ->)]; cbn [mbind result_bind].
    + destruct (IH st1 Hst1) as [(Hall & st' & Hrun & Hst')|(Hnot & Hrun)].
      * left. split; [by constructor|]. by exists st'.
      * right. split; [|done]. intros Hall. apply Forall_cons in Hall as [_ ?].
        done.
    + right. split; [|done]. intros Hall. by apply Forall_cons in Hall as [? _].
Qed.

(** The whole function, split at the header row. *)
Lemma read_refseq_metadata_unfold (header : list string)
    (rows : list (list string)) :
  read_refseq_metadata (header :: rows) keep_db_prefix
  = c ← header_columns header;
    st ← for_each row_step
          (MetadataLocals false (col_genome c) (col_taxid c) (col_level c)
             (col_category c) ∅ ∅ ∅) rows;
    Ok (accession_to_taxid st, complete_genomes st, representative_genomes st).
Proof.
  unfold read_refseq_metadata. cbn [for_each]. rewrite header_row_columns.
  by destruct (header_columns header).
Qed.
End MetadataTables.

(** On the rows that the CSV reader hands over, after a header that has
    the four columns: a data row without a [genome] value, or with a
    [genome] value that starts with [RS_] and without one of the three
    other values, makes [read_refseq_metadata] raise [IndexError], whatever
    the rows after it are; and when the reader has handed over the whole
    file and no data row is such a row, the three structures are
    returned. *)
Theorem read_refseq_metadata_short_row (header : list string)
    (rows : list (list string)) (keep_db_prefix : bool) (c : columns) :
  header_columns header = Ok c →
  (∀ before row after, rows = before ++ row :: after →
     ¬ row_readable c row →
     read_refseq_metadata (header :: rows) keep_db_prefix = Raise IndexError)
  ∧ (Forall (row_readable c) rows →
     ∃ res, read_refseq_metadata (header :: rows) keep_db_prefix = Ok res).
Proof.
  intros Hc. rewrite read_refseq_metadata_unfold, Hc. cbn [mbind result_bind].
  destruct (data_rows_outcome keep_db_prefix c _ rows (at_columns_header c))
    as [(Hall & st' & -> & _)|(Hnot & ->)]; cbn [mbind result_bind].
  - split; [|intros _; by eexists].
    intros before row after -> Hrow. exfalso. apply Hrow.
    apply (proj1 (Forall_forall _ _) Hall). apply elem_of_app. right. left.
  - split; [done|]. intros Hall. done.
Qed.

Lemma read_refseq_metadata_short_row_witness :
  read_refseq_metadata
    [ ["genome"; "ncbi_taxid"; "ncbi_assembly_level"; "ncbi_refseq_category"];
      ["GB_GCA_2"];
      ["RS_GCF_1"; "562"];
      [] ] false
  = Raise IndexError.
Proof.
  refine (proj1 (read_refseq_metadata_short_row _ _ false (Columns 0 1 2 3) _)
            [["GB_GCA_2"]] ["RS_GCF_1"; "562"] [[]] _ _).
  - reflexivity.
  - reflexivity.
  - intros (g & Hg & Hrest). injection Hg as <-.
    destruct (Hrest eq_refl) as (_ & [l Hl] & _). discriminate.
Defined.

Section MetadataAgree.
Variable keep_db_prefix : bool.

Local Notation row_step := (read_refseq_metadata_row keep_db_prefix).

(** The three structures of two states are the same. *)
Local Notation same_tables st1 st2 :=
  (accession_to_taxid st1 = accession_to_taxid st2
   ∧ complete_genomes st1 = complete_genomes st2
   ∧ representative_genomes st1 = representative_genomes st2).

Lemma data_rows_skip_all (c : columns) (st : metadata_locals)
    (rows : list (list string)) :
  at_columns c st →
  (∀ row, row ∈ rows →
     ∃ g, row !! col_genome c = Some g ∧ Py.startswith "RS_" g = false) →
  for_each row_step st rows = Ok st.
Proof.
  intros (Hb & Hgi & _) Hrows.
  induction rows as [|row rows IH]; [done|]. cbn [for_each].
  destruct (Hrows row) as (g & Hg & Hrs); [left|].
  rewrite (data_row_skip keep_db_prefix st row g); [|done|by rewrite Hgi|done].
  cbn [mbind result_bind]. apply IH. intros r Hr. apply Hrows. by right.
Qed.

(** Rows that agree take states with the same structures to states with
    the same structures, or both raise. *)
Lemma data_row_agree (c1 c2 : columns) (st1 st2 : metadata_locals)
    (r1 r2 : list string) :
  at_columns c1 st1 → at_columns c2 st2 → same_tables st1 st2 →
  row_agree c1 c2 r1 r2 →
  (∃ s1 s2, row_step st1 r1 = Ok s1 ∧ row_step st2 r2 = Ok s2
            ∧ at_columns c1 s1 ∧ at_columns c2 s2 ∧ same_tables s1 s2)
  ∨ (row_step st1 r1 = Raise IndexError ∧ row_step st2 r2 = Raise IndexError).
Proof.
  intros (Hb1 & Hg1 & Ht1 & Ha1 & Hr1) (Hb2 & Hg2 & Ht2 & Ha2 & Hr2)
    (Ea & Ec & Er) (Ag & At & Al & Ac).
  unfold read_refseq_metadata_row, Py.getitem.
  rewrite Hb1, Hb2, Hg1, Hg2, Ht1, Ht2, Ha1, Ha2, Hr1, Hr2, Ea, Ec, Er, Ag, At.
  destruct (r2 !! col_genome c2) as [g|]; cbn [mbind result_bind]; [|by right].
  destruct (Py.startswith "RS_" g).
  2:{ left. exists st1, st2. by repeat split. }
  destruct (r2 !! col_taxid c2) as [t|]; cbn [mbind result_bind]; [|by right].
  destruct (r1 !! col_level c1) as [l1|], (r2 !! col_level c2) as [l2|];
    cbn [fmap option_fmap option_map] in Al; try discriminate;
    cbn [mbind result_bind]; [|by right].
  injection Al as Al. rewrite Al.
  destruct (r1 !! col_category c1) as [k1|], (r2 !! col_category c2) as [k2|];
    cbn [fmap option_fmap option_map] in Ac; try discriminate;
    cbn [mbind result_bind]; [|by right].
  injection Ac as Ac. rewrite Ac.
  left. eexists _, _. split; [done|]. split; [done|]. by repeat split.
Qed.

Lemma data_rows_agree (c1 c2 : columns) (rows1 rows2 : list (list string)) :
  Forall2 (row_agree c1 c2) rows1 rows2 →
  ∀ st1 st2, at_columns c1 st1 → at_columns c2 st2 → same_tables st1 st2 →
  (∃ s1 s2, for_each row_step st1 rows1 = Ok s1
            ∧ for_each row_step st2 rows2 = Ok s2 ∧ same_tables s1 s2)
  ∨ (for_each row_step st1 rows1 = Raise IndexError
     ∧ for_each row_step st2 rows2 = Raise IndexError).
Proof.
  induction 1 as [|r1 r2 rows1 rows2 Hrow _ IH]; intros st1 st2 H1 H2 Hsame.
  - left. by exists st1, st2.
  - cbn [for_each].
    destruct (data_row_agree c1 c2 st1 st2 r1 r2 H1 H2 Hsame Hrow)
      as [(s1 & s2 & -> & -> & Hs1 & Hs2 & Hs)|[-> ->]];
      cbn [mbind result_bind]; [|by right].
    by apply IH.
Qed.
End MetadataAgree.

(** A file without a single [RS_] row (so also a file of a header row
    alone) gives three empty structures. *)
Theorem read_refseq_metadata_no_refseq_row (header : list string)
    (rows : list (list string)) (keep_db_prefix : bool) (c : columns) :
  header_columns header = Ok c →
  (∀ row, row ∈ rows →
     ∃ g, row !! col_genome c = Some g ∧ Py.startswith "RS_" g = false) →
  read_refseq_metadata (header :: rows) keep_db_prefix = Ok (∅, ∅, ∅).
Proof.
  intros Hc Hrows. rewrite read_refseq_metadata_unfold, Hc.
  cbn [mbind result_bind].
  by rewrite (data_rows_skip_all keep_db_prefix c _ rows (at_columns_header c)).
Qed.

Lemma read_refseq_metadata_no_refseq_row_witness :
  read_refseq_metadata
    [ ["ncbi_refseq_category"; "genome"; "ncbi_taxid"; "ncbi_assembly_level"];
      ["representative genome"; "GB_GCA_2"; "1280"; "Complete Genome"];
      ["na"; "U_77"] ] true
  = Ok (∅, ∅, ∅).
Proof.
  apply (read_refseq_metadata_no_refseq_row _ _ true (Columns 1 2 3 0)).
  - reflexivity.
  - intros row Hin.
    each_member Hin ltac:(eexists; split; reflexivity).
Defined.

(** The outcome depends on the file only through the values of the four
    named columns, the assembly level and the RefSeq category counting up
    to the case of their letters: the position of the columns, the other
    columns and the case of these two values play no part. *)
Theorem read_refseq_metadata_four_columns (header1 header2 : list string)
    (rows1 rows2 : list (list string)) (keep_db_prefix : bool)
    (c1 c2 : columns) :
  header_columns header1 = Ok c1 → header_columns header2 = Ok c2 →
  Forall2 (row_agree c1 c2) rows1 rows2 →
  read_refseq_metadata (header1 :: rows1) keep_db_prefix
  = read_refseq_metadata (header2 :: rows2) keep_db_prefix.
Proof.
  intros Hc1 Hc2 Hrows. rewrite !read_refseq_metadata_unfold, Hc1, Hc2.
  cbn [mbind result_bind].
  destruct (data_rows_agree keep_db_prefix c1 c2 rows1 rows2 Hrows _ _
              (at_columns_header c1) (at_columns_header c2))
    as [(s1 & s2 & -> & -> & Ea & Ec & Er)|[-> ->]]; [done| |done].
  cbn [mbind result_bind]. by rewrite Ea, Ec, Er.
Qed.

Lemma read_refseq_metadata_four_columns_witness :
  read_refseq_metadata
    [ ["genome"; "ncbi_taxid"; "ncbi_assembly_level"; "ncbi_refseq_category"];
      ["RS_GCF_1"; "562"; "Complete Genome"; "Reference Genome"];
      ["GB_GCA_2"; "1280"; "Scaffold"; "na"] ] false
  = read_refseq_metadata
    [ ["organism"; "ncbi_refseq_category"; "ncbi_assembly_level";
       "ncbi_taxid"; "genome"];
      ["E. coli"; "reference genome"; "COMPLETE GENOME"; "562"; "RS_GCF_1"];
      ["S. aureus"; "NA"; "scaffold"; "1280"; "GB_GCA_2"] ] false.
Proof.
  apply (read_refseq_metadata_four_columns _ _ _ _ false
           (Columns 0 1 2 3) (Columns 4 3 2 1)).
  - reflexivity.
  - reflexivity.
  - repeat constructor.
Defined.

Section MetadataContents.
Variable keep_db_prefix : bool.
Variable c : columns.

Local Notation row_step := (read_refseq_metadata_row keep_db_prefix).
Local Notation key := (accession_key keep_db_prefix).

(** The row holds a complete genome / a reference or representative
    genome, as the loop tests it. *)
Local Notation complete_row row :=
  (∃ l, row !! col_level c = Some l ∧ Py.lower l = "complete genome").
Local Notation representative_row row :=
  (∃ r, row !! col_category c = Some r
        ∧ Py.contains "reference" (Py.lower r)
          || Py.contains "representative" (Py.lower r) = true).

(** What a data row does, with the columns at [c]. *)
Lemma data_row_effect (st st' : metadata_locals) (row : list string) :
  at_columns c st → row_step st row = Ok st' →
  at_columns c st'
  ∧ ∃ g, row !! col_genome c = Some g
      ∧ (Py.startswith "RS_" g = false ∧ st' = st
         ∨ Py.startswith "RS_" g = true
           ∧ ∃ t l r,
               row !! col_taxid c = Some t ∧ row !! col_level c = Some l
               ∧ row !! col_category c = Some r
               ∧ accession_to_taxid st' = <[key g := t]> (accession_to_taxid st)
               ∧ complete_genomes st'
                 = (if decide (Py.lower l = "complete genome")
                    then {[key g]} ∪ complete_genomes st
                    else complete_genomes st)
               ∧ representative_genomes st'
                 = (if Py.contains "reference" (Py.lower r)
                       || Py.contains "representative" (Py.lower r)
                    then {[key g]} ∪ representative_genomes st
                    else representative_genomes st)).
Proof.
  intros (Hb & Hgi & Hti & Hai & Hri) Hstep.
  destruct (data_row_Ok keep_db_prefix st st' row Hb Hstep)
    as (g & Hg & [[Hrs ->]|(Hrs & t & l & r & Ht & Hl & Hr & ->)]).
  - split; [by repeat split|]. exists g. rewrite <- Hgi. split; [done|]. by left.
  - split; [by repeat split|]. exists g. rewrite <- Hgi. split; [done|]. right.
    split; [done|]. exists t, l, r. rewrite <- Hti, <- Hai, <- Hri. by repeat split.
Qed.

(** Where the contents of the three structures come from. *)
Lemma data_rows_from (st st' : metadata_locals) (rows : list (list string)) :
  at_columns c st → for_each row_step st rows = Ok st' →
  (∀ k t, accession_to_taxid st' !! k = Some t →
     accession_to_taxid st !! k = Some t
     ∨ ∃ row g, row ∈ rows ∧ retained c row g ∧ k = key g
                ∧ row !! col_taxid c = Some t)
  ∧ (∀ k, k ∈ complete_genomes st' →
       k ∈ complete_genomes st
       ∨ ∃ row g, row ∈ rows ∧ retained c row g ∧ k = key g
                  ∧ complete_row row)
  ∧ (∀ k, k ∈ representative_genomes st' →
       k ∈ representative_genomes st
       ∨ ∃ row g, row ∈ rows ∧ retained c row g ∧ k = key g
                  ∧ representative_row row).
Proof.
  intros Hst Hrun.
  apply proj2 with (A := at_columns c st').
  apply (for_each_invariant row_step
    (λ s, at_columns c s
      ∧ (∀ k t, accession_to_taxid s !! k = Some t →
           accession_to_taxid st !! k = Some t
           ∨ ∃ row g, row ∈ rows ∧ retained c row g ∧ k = key g
                      ∧ row !! col_taxid c = Some t)
      ∧ (∀ k, k ∈ complete_genomes s →
           k ∈ complete_genomes st
           ∨ ∃ row g, row ∈ rows ∧ retained c row g ∧ k = key g
                      ∧ complete_row row)
      ∧ (∀ k, k ∈ representative_genomes s →
           k ∈ representative_genomes st
           ∨ ∃ row g, row ∈ rows ∧ retained c row g ∧ k = key g
                      ∧ representative_row row))
    rows) with st; [|by auto|done].
  intros s row s' Hrow (Hs & Ha & Hc & Hr) Hstep.
  destruct (data_row_effect s s' row Hs Hstep)
    as (Hs' & g & Hg & [[_ ->]|(Hrs & t & l & r & Ht & Hl & Hcat & Ea & Ec & Er)]);
    [done|].
  split; [done|]. split_and!.
  - intros k t'. rewrite Ea. intros Hk.
    apply lookup_insert_Some in Hk as [[<- <-]|[_ Hk]]; [|by apply Ha].
    right. by exists row, g.
  - intros k. rewrite Ec. case_decide as Hlow; [|by apply Hc].
    rewrite elem_of_union, elem_of_singleton. intros [->|Hk]; [|by apply Hc].
    right. exists row, g. split_and!; [done..|]. by exists l.
  - intros k. rewrite Er.
    destruct (_ || _) eqn:Hrep; [|by apply Hr].
    rewrite elem_of_union, elem_of_singleton. intros [->|Hk]; [|by apply Hr].
    right. exists row, g. split_and!; [done..|]. by exists r.
Qed.

(** Members are never removed, and every retained row is classified. *)
Lemma data_rows_to (st st' : metadata_locals) (rows : list (list string)) :
  at_columns c st → for_each row_step st rows = Ok st' →
  complete_genomes st ⊆ complete_genomes st'
  ∧ representative_genomes st ⊆ representative_genomes st'
  ∧ (∀ row g, row ∈ rows → retained c row g → complete_row row →
              key g ∈ complete_genomes st')
  ∧ (∀ row g, row ∈ rows → retained c row g → representative_row row →
              key g ∈ representative_genomes st').
Proof.
  revert st. induction rows as [|row rows IH]; intros st Hst Hrun.
  - cbn [for_each] in Hrun. injection Hrun as <-. split_and!; [done..| |].
    + intros r g Hin. by apply elem_of_nil in Hin.
    + intros r g Hin. by apply elem_of_nil in Hin.
  - cbn [for_each] in Hrun.
    destruct (row_step st row) as [st1|e] eqn:Hstep;
      cbn [mbind result_bind] in Hrun; [|done].
    destruct (data_row_effect st st1 row Hst Hstep) as (Hst1 & g & Hg & Hcase).
    destruct (IH st1 Hst1 Hrun) as (Hc1 & Hr1 & Hcto & Hrto).
    assert (complete_genomes st ⊆ complete_genomes st1
            ∧ representative_genomes st ⊆ representative_genomes st1
            ∧ (∀ g', retained c row g' → complete_row row →
                     key g' ∈ complete_genomes st1)
            ∧ (∀ g', retained c row g' → representative_row row →
                     key g' ∈ representative_genomes st1))
      as (Hc0 & Hr0 & Hcrow & Hrrow).
    { destruct Hcase
        as [[Hrs ->]|(Hrs & t & l & r & Ht & Hl & Hcat & Ea & Ec & Er)].
      - split_and!; [done..| |]; intros g' [Hg' Hrs'] _; congruence.
      - rewrite Ec, Er. split_and!.
        + case_decide; set_solver.
        + destruct (_ || _); set_solver.
        + intros g' [Hg' _] (l' & Hl' & Hlow).
          assert (g' = g) as -> by congruence.
          assert (l' = l) as -> by congruence.
          rewrite decide_True by done. set_solver.
        + intros g' [Hg' _] (r' & Hr' & Hrep).
          assert (g' = g) as -> by congruence.
          assert (r' = r) as -> by congruence.
          rewrite Hrep. set_solver. }
    split_and!.
    + by etrans.
    + by etrans.
    + intros r g' Hin Hret Hcomp. apply elem_of_cons in Hin as [->|Hin].
      * apply Hc1. by apply Hcrow.
      * by apply (Hcto r).
    + intros r g' Hin Hret Hrep. apply elem_of_cons in Hin as [->|Hin].
      * apply Hr1. by apply Hrrow.
      * by apply (Hrto r).
Qed.

(** Rows with other keys leave the taxonomy id of a key alone. *)
Lemma data_rows_lookup_other (st st' : metadata_locals)
    (rows : list (list string)) (k : string) :
  at_columns c st → for_each row_step st rows = Ok st' →
  (∀ row g, row ∈ rows → retained c row g → key g ≠ k) →
  accession_to_taxid st' !! k = accession_to_taxid st !! k.
Proof.
  intros Hst Hrun Hother.
  apply proj2 with (A := at_columns c st').
  apply (for_each_invariant row_step
    (λ s, at_columns c s
          ∧ accession_to_taxid s !! k = accession_to_taxid st !! k)
    rows) with st; [|by auto|done].
  intros s row s' Hrow (Hs & Hk) Hstep.
  destruct (data_row_effect s s' row Hs Hstep)
    as (Hs' & g & Hg & [[_ ->]|(Hrs & t & l & r & Ht & Hl & Hcat & Ea & _)]);
    [done|].
  split; [done|]. rewrite Ea, lookup_insert_ne; [done|].
  by apply (Hother row g).
Qed.
End MetadataContents.

(** The state in which the data rows are read, and the state they leave. *)
Lemma read_refseq_metadata_run (header : list string)
    (rows : list (list string)) (keep_db_prefix : bool) (c : columns)
    (a2t : gmap string string) (complete representative : gset string) :
  header_columns header = Ok c →
  read_refseq_metadata (header :: rows) keep_db_prefix
  = Ok (a2t, complete, representative) →
  ∃ st st', at_columns c st
    ∧ accession_to_taxid st = ∅ ∧ complete_genomes st = ∅
    ∧ representative_genomes st = ∅
    ∧ for_each (read_refseq_metadata_row keep_db_prefix) st rows = Ok st'
    ∧ accession_to_taxid st' = a2t ∧ complete_genomes st' = complete
    ∧ representative_genomes st' = representative.
Proof.
  intros Hc. rewrite read_refseq_metadata_unfold, Hc. cbn [mbind result_bind].
  destruct (for_each _ _ rows) as [st'|e] eqn:Hrun;
    cbn [mbind result_bind]; [|done].
  intros [= <- <- <-]. eexists _, st'.
  split; [apply (at_columns_header c)|]. by repeat split.
Qed.

(** Every entry of the returned mapping pairs the key of a retained row
    with the [ncbi_taxid] value of that row. *)
Theorem read_refseq_metadata_entries (header : list string)
    (rows : list (list string)) (keep_db_prefix : bool) (c : columns)
    (a2t : gmap string string) (complete representative : gset string)
    (k t : string) :
  header_columns header = Ok c →
  read_refseq_metadata (header :: rows) keep_db_prefix
  = Ok (a2t, complete, representative) →
  a2t !! k = Some t →
  ∃ row g, row ∈ rows ∧ row !! col_genome c = Some g
           ∧ Py.startswith "RS_" g = true
           ∧ k = accession_key keep_db_prefix g
           ∧ row !! col_taxid c = Some t.
Proof.
  intros Hc Hread Hk.
  destruct (read_refseq_metadata_run _ _ _ _ _ _ _ Hc Hread)
    as (st & st' & Hst & Ha & _ & _ & Hrun & <- & _ & _).
  destruct (data_rows_from keep_db_prefix c st st' rows Hst Hrun) as (Hfrom & _).
  destruct (Hfrom k t Hk) as [Hk0|(row & g & Hin & [Hg Hrs] & Hkey & Ht)].
  - by rewrite Ha, lookup_empty in Hk0.
  - by exists row, g.
Qed.

Lemma read_refseq_metadata_entries_witness :
  ∃ row g,
    row ∈ [ ["562"; "RS_GCF_1"; "Reference Genome"; "Complete Genome"];
            ["1313"; "RS_GCF_3"; "na"; "Scaffold"] ]
    ∧ row !! 1 = Some g ∧ Py.startswith "RS_" g = true
    ∧ "GCF_3" = accession_key false g ∧ row !! 0 = Some "1313".
Proof.
  apply (read_refseq_metadata_entries
    ["ncbi_taxid"; "genome"; "ncbi_refseq_category"; "ncbi_assembly_level"]
    _ false (Columns 1 0 3 2)
    (<["GCF_3" := "1313"]> (<["GCF_1" := "562"]> ∅)) {["GCF_1"]} {["GCF_1"]});
    reflexivity.
Defined.

(** The taxonomy id stored under the key of a retained row is the
    [ncbi_taxid] value of the last retained row with this key. *)
Theorem read_refseq_metadata_last_taxid (header : list string)
    (before after : list (list string)) (row : list string)
    (keep_db_prefix : bool) (c : columns)
    (a2t : gmap string string) (complete representative : gset string)
    (g taxid : string) :
  header_columns header = Ok c →
  read_refseq_metadata (header :: before ++ row :: after) keep_db_prefix
  = Ok (a2t, complete, representative) →
  row !! col_genome c = Some g → Py.startswith "RS_" g = true →
  row !! col_taxid c = Some taxid →
  (∀ r g', r ∈ after → r !! col_genome c = Some g' →
           Py.startswith "RS_" g' = true →
           accession_key keep_db_prefix g' ≠ accession_key keep_db_prefix g) →
  a2t !! accession_key keep_db_prefix g = Some taxid.
Proof.
  intros Hc Hread Hg Hrs Ht Hafter.
  destruct (read_refseq_metadata_run _ _ _ _ _ _ _ Hc Hread)
    as (st & st' & Hst & _ & _ & _ & Hrun & <- & _ & _).
  rewrite for_each_app in Hrun.
  destruct (for_each _ st before) as [st1|e] eqn:Hbefore;
    cbn [mbind result_bind] in Hrun; [|done].
  assert (at_columns c st1) as Hst1.
  { destruct (data_rows_outcome keep_db_prefix c st before Hst)
      as [(_ & s & Hs & Hat)|(_ & Hs)]; congruence. }
  cbn [for_each] in Hrun.
  destruct (read_refseq_metadata_row keep_db_prefix st1 row) as [st2|e] eqn:Hrow;
    cbn [mbind result_bind] in Hrun; [|done].
  destruct (data_row_effect keep_db_prefix c st1 st2 row Hst1 Hrow)
    as (Hst2 & g' & Hg' & [[Hrs' _]|(_ & t & l & r & Ht' & _ & _ & Ea & _)]);
    [congruence|].
  assert (g' = g) as -> by congruence. assert (t = taxid) as -> by congruence.
  rewrite (data_rows_lookup_other keep_db_prefix c st2 st' after _ Hst2 Hrun).
  - by rewrite Ea, lookup_insert_eq.
  - intros r0 g0 Hin [Hg0 Hrs0]. by apply (Hafter r0).
Qed.

Lemma read_refseq_metadata_last_taxid_witness :
  (<["GCF_1" := "83333"]> (∅ : gmap string string))
  !! accession_key false "RS_GCF_1" = Some "83333".
Proof.
  apply (read_refseq_metadata_last_taxid
    ["genome"; "ncbi_taxid"; "ncbi_assembly_level"; "ncbi_refseq_category"]
    [ ["RS_GCF_1"; "562"; "Scaffold"; "na"] ]
    [ ["GB_GCF_1"; "1"; "Scaffold"; "na"] ]
    ["RS_GCF_1"; "83333"; "Scaffold"; "na"]
    false (Columns 0 1 2 3) _ ∅ ∅); try reflexivity.
  intros r g' Hin Hg' Hrs. each_member Hin ltac:(by vm_compute in Hg', Hrs; simplify_eq).
Defined.

(** [complete_genomes] holds exactly the keys of the retained rows whose
    assembly level is "complete genome", whatever the case of its
    letters. *)
Theorem read_refseq_metadata_complete (header : list string)
    (rows : list (list string)) (keep_db_prefix : bool) (c : columns)
    (a2t : gmap string string) (complete representative : gset string)
    (k : string) :
  header_columns header = Ok c →
  read_refseq_metadata (header :: rows) keep_db_prefix
  = Ok (a2t, complete, representative) →
  k ∈ complete ↔
  ∃ row g level, row ∈ rows ∧ row !! col_genome c = Some g
    ∧ Py.startswith "RS_" g = true
    ∧ k = accession_key keep_db_prefix g
    ∧ row !! col_level c = Some level
    ∧ Py.lower level = "complete genome".
Proof.
  intros Hc Hread.
  destruct (read_refseq_metadata_run _ _ _ _ _ _ _ Hc Hread)
    as (st & st' & Hst & _ & Hc0 & _ & Hrun & _ & <- & _).
  split.
  - intros Hk.
    destruct (data_rows_from keep_db_prefix c st st' rows Hst Hrun)
      as (_ & Hfrom & _).
    destruct (Hfrom k Hk)
      as [Hk0|(row & g & Hin & [Hg Hrs] & Hkey & l & Hl & Hlow)].
    + rewrite Hc0 in Hk0. by apply not_elem_of_empty in Hk0.
    + by exists row, g, l.
  - intros (row & g & l & Hin & Hg & Hrs & -> & Hl & Hlow).
    destruct (data_rows_to keep_db_prefix c st st' rows Hst Hrun)
      as (_ & _ & Hto & _).
    apply (Hto row g); [done|by split|by exists l].
Qed.

Lemma read_refseq_metadata_complete_witness :
  "GCF_1" ∈ ({["GCF_1"]} : gset string) ↔
  ∃ row g level,
    row ∈ [ ["562"; "RS_GCF_1"; "Reference Genome"; "COMPLETE Genome"];
            ["1313"; "RS_GCF_3"; "na"; "Scaffold"] ]
    ∧ row !! 1 = Some g ∧ Py.startswith "RS_" g = true
    ∧ "GCF_1" = accession_key false g
    ∧ row !! 3 = Some level ∧ Py.lower level = "complete genome".
Proof.
  apply (read_refseq_metadata_complete
    ["ncbi_taxid"; "genome"; "ncbi_refseq_category"; "ncbi_assembly_level"]
    _ false (Columns 1 0 3 2)
    (<["GCF_3" := "1313"]> (<["GCF_1" := "562"]> ∅)) _ {["GCF_1"]});
    reflexivity.
Defined.

(** [representative_genomes] holds exactly the keys of the retained rows
    whose RefSeq category, put in lower case, contains "reference" or
    "representative". *)
Theorem read_refseq_metadata_representative (header : list string)
    (rows : list (list string)) (keep_db_prefix : bool) (c : columns)
    (a2t : gmap string string) (complete representative : gset string)
    (k : string) :
  header_columns header = Ok c →
  read_refseq_metadata (header :: rows) keep_db_prefix
  = Ok (a2t, complete, representative) →
  k ∈ representative ↔
  ∃ row g category, row ∈ rows ∧ row !! col_genome c = Some g
    ∧ Py.startswith "RS_" g = true
    ∧ k = accession_key keep_db_prefix g
    ∧ row !! col_category c = Some category
    ∧ Py.contains "reference" (Py.lower category)
      || Py.contains "representative" (Py.lower category) = true.
Proof.
  intros Hc Hread.
  destruct (read_refseq_metadata_run _ _ _ _ _ _ _ Hc Hread)
    as (st & st' & Hst & _ & _ & Hr0 & Hrun & _ & _ & <-).
  split.
  - intros Hk.
    destruct (data_rows_from keep_db_prefix c st st' rows Hst Hrun)
      as (_ & _ & Hfrom).
    destruct (Hfrom k Hk)
      as [Hk0|(row & g & Hin & [Hg Hrs] & Hkey & r & Hr & Hrep)].
    + rewrite Hr0 in Hk0. by apply not_elem_of_empty in Hk0.
    + by exists row, g, r.
  - intros (row & g & r & Hin & Hg & Hrs & -> & Hr & Hrep).
    destruct (data_rows_to keep_db_prefix c st st' rows Hst Hrun)
      as (_ & _ & _ & Hto).
    apply (Hto row g); [done|by split|by exists r].
Qed.

Lemma read_refseq_metadata_representative_witness :
  "GCF_1" ∈ ({["GCF_1"]} : gset string) ↔
  ∃ row g category,
    row ∈ [ ["562"; "RS_GCF_1"; "Reference Genome"; "COMPLETE Genome"];
            ["1313"; "RS_GCF_3"; "na"; "Scaffold"] ]
    ∧ row !! 1 = Some g ∧ Py.startswith "RS_" g = true
    ∧ "GCF_1" = accession_key false g
    ∧ row !! 2 = Some category
    ∧ Py.contains "reference" (Py.lower category)
      || Py.contains "representative" (Py.lower category) = true.
Proof.
  apply (read_refseq_metadata_representative
    ["ncbi_taxid"; "genome"; "ncbi_refseq_category"; "ncbi_assembly_level"]
    _ false (Columns 1 0 3 2)
    (<["GCF_3" := "1313"]> (<["GCF_1" := "562"]> ∅)) {["GCF_1"]});
    reflexivity.
Defined.

(** ** [read_type_strains] and [get_type_strains] together *)

Lemma read_type_strains_lines_from (taxids : gset string)
    (lines : list string) :
  for_each read_type_strains_line taxids lines
  = found ← for_each read_type_strains_line ∅ lines; Ok (found ∪ taxids).
Proof.
  destruct (read_type_strains_lines taxids lines) as (s1 & -> & H1).
  destruct (read_type_strains_lines ∅ lines) as (s0 & -> & H0).
  cbn [mbind result_bind]. f_equal. apply set_eq. intros x.
  rewrite H1, elem_of_union, H0. split.
  - intros [?|?]; [by right|left; by right].
  - intros [[Hx|?]|?]; [by apply not_elem_of_empty in Hx|by right|by left].
Qed.

(** Reading two type-strain files written one after the other, the first
    one ending its last line, gives the union of the two sets. *)
Theorem read_type_strains_concat (s t : string) :
  read_type_strains ((s +:+ Py.nl) +:+ t)
  = found1 ← read_type_strains (s +:+ Py.nl);
    found2 ← read_type_strains t;
    Ok (found2 ∪ found1).
Proof.
  unfold read_type_strains. rewrite file_lines_app, for_each_app.
  destruct (for_each read_type_strains_line ∅ (Py.file_lines (s +:+ Py.nl)))
    as [found1|e]; cbn [mbind result_bind]; [|done].
  apply read_type_strains_lines_from.
Qed.

(** Two files with the same lines, in any order and any number of times,
    give the same set. *)
Theorem read_type_strains_same_lines (text1 text2 : string) :
  (∀ line, line ∈ Py.file_lines text1 ↔ line ∈ Py.file_lines text2) →
  read_type_strains text1 = read_type_strains text2.
Proof.
  intros Hsame. unfold read_type_strains.
  destruct (read_type_strains_lines ∅ (Py.file_lines text1)) as (s1 & -> & H1).
  destruct (read_type_strains_lines ∅ (Py.file_lines text2)) as (s2 & -> & H2).
  f_equal. apply set_eq. intros x. rewrite H1, H2.
  split; (intros [?|(line & Hin & Hx)]; [by left|]; right; exists line;
          split; [by apply Hsame|done]).
Qed.

Lemma read_type_strains_same_lines_witness :
  read_type_strains ("562" +:+ Py.tab +:+ "a" +:+ Py.nl +:+ "1280" +:+ Py.nl)
  = read_type_strains ("1280" +:+ Py.nl +:+ "562" +:+ Py.tab +:+ "a" +:+ Py.nl
                       +:+ "1280" +:+ Py.nl).
Proof.
  apply read_type_strains_same_lines. intros line. split; intros Hin.
  - each_member Hin ltac:(by repeat constructor).
  - each_member Hin ltac:(by repeat constructor).
Defined.

(** The result of [get_type_strains] is the same for every order in which
    the members of [genome_ids] are visited, repeats included. *)
Theorem get_type_strains_any_order (order : list string)
    (genome_ids : gset string) (accession_to_taxid : gmap string pyval)
    (type_strain_taxids : gset pyval) :
  (∀ g, g ∈ order ↔ g ∈ genome_ids) →
  get_type_strains_loop order accession_to_taxid type_strain_taxids
  = get_type_strains genome_ids accession_to_taxid type_strain_taxids.
Proof.
  intros Horder. apply set_eq. intros g.
  by rewrite get_type_strains_loop_spec, get_type_strains_spec, Horder.
Qed.

Lemma get_type_strains_any_order_witness :
  get_type_strains_loop ["B"; "A"; "B"] (<["A" := PyStr "1"]> ∅) {[PyStr "1"]}
  = get_type_strains {["A"; "B"]} (<["A" := PyStr "1"]> ∅) {[PyStr "1"]}.
Proof.
  apply get_type_strains_any_order. intros g.
  rewrite elem_of_union, !elem_of_singleton, !elem_of_cons. split.
  - intros [-> | [-> | [-> | Hg]]]; auto. by apply elem_of_nil in Hg.
  - intros [-> | ->]; auto.
Defined.

(** [get_type_strains] distributes over unions of genome sets and of
    type-strain sets, and applying it to its own result changes nothing. *)
Theorem get_type_strains_union (genome_ids1 genome_ids2 : gset string)
    (accession_to_taxid : gmap string pyval)
    (type_strain_taxids1 type_strain_taxids2 : gset pyval) :
  get_type_strains (genome_ids1 ∪ genome_ids2) accession_to_taxid
    type_strain_taxids1
  = get_type_strains genome_ids1 accession_to_taxid type_strain_taxids1
    ∪ get_type_strains genome_ids2 accession_to_taxid type_strain_taxids1
  ∧ get_type_strains genome_ids1 accession_to_taxid
      (type_strain_taxids1 ∪ type_strain_taxids2)
    = get_type_strains genome_ids1 accession_to_taxid type_strain_taxids1
      ∪ get_type_strains genome_ids1 accession_to_taxid type_strain_taxids2
  ∧ get_type_strains
      (get_type_strains genome_ids1 accession_to_taxid type_strain_taxids1)
      accession_to_taxid type_strain_taxids1
    = get_type_strains genome_ids1 accession_to_taxid type_strain_taxids1.
Proof.
  split_and!; apply set_eq; intros g;
    rewrite ?elem_of_union, !get_type_strains_spec, ?elem_of_union; tauto.
Qed.

Lemma get_type_strains_sentinel_collision_witness :
  "C" ∈ get_type_strains {["A"; "C"]} (<["A" := PyStr "1"]> ∅)
          {[PyStr "1"; PyInt (-1)]}.
Proof.
  apply get_type_strains_sentinel_collision.
  - apply elem_of_union. right. by apply elem_of_singleton.
  - reflexivity.
  - apply elem_of_union. right. by apply elem_of_singleton.
Defined.

(** Membership in the result, for a mapping and a set of strings, as
    [read_refseq_metadata] and [read_type_strains] produce them. *)
Lemma get_type_strains_strings (genome_ids : gset string)
    (a2t : gmap string string) (taxids : gset string) (g : string) :
  g ∈ get_type_strains genome_ids (PyStr <$> a2t) (set_map PyStr taxids) ↔
  g ∈ genome_ids ∧ ∃ t, a2t !! g = Some t ∧ t ∈ taxids.
Proof.
  rewrite get_type_strains_spec. unfold dict_get. rewrite lookup_fmap.
  split; intros [Hg Ht]; (split; [done|]).
  - apply elem_of_map in Ht as (t & Heq & Ht).
    destruct (a2t !! g) as [t'|]; simpl in Heq; [|done].
    injection Heq as ->. by exists t.
  - destruct Ht as (t & -> & Ht). simpl. apply elem_of_map. by exists t.
Qed.

(** The two readers and the matcher together: with the type-strain set
    read from a file, the genomes selected are those of [genome_ids] whose
    taxonomy id is the first tab-delimited field of a line of the file,
    the lines being those of the text, newline included.  With the lines
    [562<TAB>E. coli] and [1280], each ended by a newline, a genome of
    taxonomy id 562 is selected and one of taxonomy id 1280 is not. *)
Theorem get_type_strains_of_file :
  (∀ (type_strain_file : string) (genome_ids : gset string)
     (a2t : gmap string string),
     ∃ taxids lines,
       read_type_strains type_strain_file = Ok taxids
       ∧ lines_of_text type_strain_file lines
       ∧ (∀ lines', lines_of_text type_strain_file lines' → lines' = lines)
       ∧ ∀ g, g ∈ get_type_strains genome_ids (PyStr <$> a2t)
                    (set_map PyStr taxids) ↔
              g ∈ genome_ids
              ∧ ∃ t line, a2t !! g = Some t ∧ line ∈ lines
                          ∧ is_first_field Py.TAB t line)
  ∧ read_type_strains ("562" +:+ Py.tab +:+ "E. coli" +:+ Py.nl
                       +:+ "1280" +:+ Py.nl)
    = Ok {[ "562"; "1280" +:+ Py.nl ]}
  ∧ get_type_strains {[ "G1"; "G2"; "G3" ]}
      (PyStr <$> <["G1" := "562"]> (<["G2" := "1280"]> ∅))
      (set_map PyStr ({[ "562"; "1280" +:+ Py.nl ]} : gset string))
    = {[ "G1" ]}.
Proof.
  split_and!.
  - intros type_strain_file genome_ids a2t.
    destruct (read_type_strains_lines ∅ (Py.file_lines type_strain_file))
      as (taxids & Hread & Hmem).
    exists taxids, (Py.file_lines type_strain_file). split; [done|].
    split; [apply lines_of_text_file_lines|].
    split; [intros lines' Hlines'; by apply lines_of_text_unique|].
    intros g. rewrite get_type_strains_strings.
    split; intros [Hg Ht]; (split; [done|]).
    + destruct Ht as (t & Hlook & Ht).
      apply Hmem in Ht as [Ht|(line & Hin & Hf)].
      * by apply not_elem_of_empty in Ht.
      * by exists t, line.
    + destruct Ht as (t & line & Hlook & Hin & Hf). exists t. split; [done|].
      apply Hmem. right. by exists line.
  - reflexivity.
  - apply set_eq. intros g. rewrite get_type_strains_strings, elem_of_singleton.
    split.
    + intros (Hg & t & Hlook & Ht).
      apply lookup_insert_Some in Hlook as [[<- <-]|[_ Hlook]]; [done|].
      apply lookup_insert_Some in Hlook as [[<- <-]|[_ Hlook]].
      * exfalso. apply elem_of_union in Ht as [Ht|Ht];
          apply elem_of_singleton in Ht; discriminate.
      * by rewrite lookup_empty in Hlook.
    + intros ->. split; [set_solver|]. exists "562". split; [reflexivity|].
      set_solver.
Qed.

(** A type-strain file of one column, every line ended by a newline,
    selects no genome whose taxonomy id is free of newlines: the set read
    from it holds the identifiers with their newline. *)
Theorem get_type_strains_one_column_file (type_strain_file : string)
    (taxids : gset string) (genome_ids : gset string)
    (a2t : gmap string string) :
  read_type_strains type_strain_file = Ok taxids →
  (∀ line, line ∈ Py.file_lines type_strain_file →
           has_char Py.TAB line = false ∧ has_char Py.NL line = true) →
  (∀ g t, a2t !! g = Some t → has_char Py.NL t = false) →
  get_type_strains genome_ids (PyStr <$> a2t) (set_map PyStr taxids) = ∅.
Proof.
  intros Hread Hlines Hclean. unfold read_type_strains in Hread.
  destruct (read_type_strains_lines ∅ (Py.file_lines type_strain_file))
    as (taxids' & Hread' & Hmem).
  assert (taxids' = taxids) as -> by congruence.
  apply set_eq. intros g. rewrite get_type_strains_strings. split.
  - intros (_ & t & Hlook & Ht). exfalso.
    apply Hmem in Ht as [Ht|(line & Hin & Hf)];
      [by apply not_elem_of_empty in Ht|].
    destruct (Hlines line Hin) as [Htab Hnl].
    assert (is_first_field Py.TAB line line) as Hself by (split; [done|by left]).
    rewrite (is_first_field_unique Py.TAB t line line Hf Hself) in Hlook.
    specialize (Hclean g line Hlook). congruence.
  - intros Hg. by apply not_elem_of_empty in Hg.
Qed.

Lemma get_type_strains_one_column_file_witness :
  get_type_strains {["GCF_1"]} (PyStr <$> <["GCF_1" := "562"]> ∅)
    (set_map PyStr ({["562" +:+ Py.nl; "1280" +:+ Py.nl]} : gset string))
  = ∅.
Proof.
  apply (get_type_strains_one_column_file
           ("562" +:+ Py.nl +:+ "1280" +:+ Py.nl)).
  - reflexivity.
  - intros line Hin. each_member Hin ltac:(by split).
  - intros g t Hlook. apply lookup_insert_Some in Hlook as [[_ <-]|[_ Hlook]].
    + reflexivity.
    + by rewrite lookup_empty in Hlook.
Defined.

(** The metadata reader and the matcher together: a genome selected with
    the mapping read from a metadata file is the key of a retained row of
    that file whose [ncbi_taxid] value is in the type-strain set. *)
Theorem get_type_strains_of_metadata (header : list string)
    (rows : list (list string)) (keep_db_prefix : bool) (c : columns)
    (a2t : gmap string string) (complete representative : gset string)
    (genome_ids taxids : gset string) (g : string) :
  header_columns header = Ok c →
  read_refseq_metadata (header :: rows) keep_db_prefix
  = Ok (a2t, complete, representative) →
  g ∈ get_type_strains genome_ids (PyStr <$> a2t) (set_map PyStr taxids) →
  g ∈ genome_ids
  ∧ ∃ row accession t,
      row ∈ rows ∧ row !! col_genome c = Some accession
      ∧ Py.startswith "RS_" accession = true
      ∧ g = accession_key keep_db_prefix accession
      ∧ row !! col_taxid c = Some t ∧ t ∈ taxids.
Proof.
  intros Hc Hread Hg.
  apply get_type_strains_strings in Hg as (Hin & t & Hlook & Ht).
  split; [done|].
  destruct (read_refseq_metadata_run _ _ _ _ _ _ _ Hc Hread)
    as (st & st' & Hst & Ha & _ & _ & Hrun & <- & _ & _).
  destruct (data_rows_from keep_db_prefix c st st' rows Hst Hrun) as (Hfrom & _).
  destruct (Hfrom g t Hlook) as [Hk0|(row & acc & Hrow & [Hacc Hrs] & Hkey & Htax)].
  - by rewrite Ha, lookup_empty in Hk0.
  - by exists row, acc, t.
Qed.

Lemma get_type_strains_of_metadata_witness :
  "GCF_1" ∈ ({["GCF_1"; "RS_GCF_1"]} : gset string)
  ∧ ∃ row accession t,
      row ∈ [ ["RS_GCF_1"; "562"; "Scaffold"; "na"];
              ["RS_GCF_3"; "1313"; "Scaffold"; "na"] ]
      ∧ row !! 0 = Some accession
      ∧ Py.startswith "RS_" accession = true
      ∧ "GCF_1" = accession_key false accession
      ∧ row !! 1 = Some t ∧ t ∈ ({["562"]} : gset string).
Proof.
  apply (get_type_strains_of_metadata
    ["genome"; "ncbi_taxid"; "ncbi_assembly_level"; "ncbi_refseq_category"]
    _ false (Columns 0 1 2 3)
    (<["GCF_3" := "1313"]> (<["GCF_1" := "562"]> ∅)) ∅ ∅).
  - reflexivity.
  - reflexivity.
  - apply get_type_strains_strings. split.
    + apply elem_of_union. left. by apply elem_of_singleton.
    + exists "562". split; [reflexivity|]. by apply elem_of_singleton.
Defined.
